(** * The Rubrik SDK [Cluster] class (rubrik/cluster.py), embedded in Rocq.

    The class is a thin client: every method validates its arguments,
    assembles a dictionary and hands it to the [Api] transport it inherits
    from ([get], [post], [object_id], [log]).  The embedding keeps that shape:

    - Python values are the inductive [pyval]; a [dict] is a finite map
      with string keys (node names, JSON member names); the insertion order
      a Python dict keeps is not modelled, and nothing proved here depends
      on it;
    - a method is an action of the monad [act]: it threads the state of the
      transport, records every call it makes in a trace, and ends by
      returning a value, by [sys.exit] or by an uncaught exception;
    - the transport is a record of functions, a variable of the development. *)

From stdpp Require Import base option list strings pretty gmap fin_maps.

Local Open Scope string_scope.
Local Open Scope list_scope.
Local Set Warnings "-register-all".

(** ** Python values *)

Inductive pyval : Type :=
  | PNone
  | PBool (b : bool)
  | PInt (n : Z)
  | PStr (s : string)
  | PList (l : list pyval)
  | PTuple (l : list pyval)
  | PDict (d : gmap string pyval).

(** [isinstance(v, dict)] and [isinstance(v, list)]. *)
Definition isinstance_dict (v : pyval) : bool :=
  match v with PDict _ => true | _ => false end.

Definition isinstance_list (v : pyval) : bool :=
  match v with PList _ => true | _ => false end.

(** [v is None]. *)
Definition is_none (v : pyval) : bool :=
  match v with PNone => true | _ => false end.

(** The uncaught exceptions a call can end with.  [KeyError] is the only
    [LookupError] that subscripting a dict by a string raises. *)
Inductive exn : Type :=
  | KeyError (key : string)
  | TypeError
  | TransportError (msg : string).

Definition is_lookup_error (e : exn) : bool :=
  match e with KeyError _ => true | _ => false end.

(** How a call ends: [return v], [sys.exit(msg)], or an exception. *)
Inductive outcome (A : Type) : Type :=
  | Returned (a : A)
  | Exited (msg : string)
  | Raised (e : exn).
Arguments Returned {A} a.
Arguments Exited {A} msg.
Arguments Raised {A} e.

(** ** Calls observed at the transport boundary

    [timeout] and [authentication] are recorded as the call site passes
    them: [None] when the argument is left to the transport's default. *)
Inductive event : Type :=
  | EvLog (msg : string)
  | EvGet (api_version endpoint : string)
          (timeout : option pyval) (authentication : option bool)
  | EvPost (api_version endpoint : string) (body : pyval)
           (timeout : option pyval) (authentication : option bool)
  | EvObjectId (name object_type : pyval)
  | EvPrint (v : pyval).

(** ** The monad of a method body *)

Definition act (S A : Type) : Type := S → outcome A * S * list event.

Definition act_ret {S A} (a : A) : act S A := λ s, (Returned a, s, []).

Definition act_bind {S A B} (f : A → act S B) (m : act S A) : act S B :=
  λ s, match m s with
       | (Returned a, s1, t1) =>
           match f a s1 with (o, s2, t2) => (o, s2, t1 ++ t2) end
       | (Exited msg, s1, t1) => (Exited msg, s1, t1)
       | (Raised e, s1, t1) => (Raised e, s1, t1)
       end.

#[global] Instance act_mret {S} : MRet (act S) := @act_ret S.
#[global] Instance act_mbind {S} : MBind (act S) := @act_bind S.

(** [sys.exit(msg)]. *)
Definition sys_exit {S A} (msg : string) : act S A := λ s, (Exited msg, s, []).

(** A step that touches neither the transport nor the trace and may raise. *)
Definition lift {S A} (o : outcome A) : act S A := λ s, (o, s, []).

Definition result {S A} (r : outcome A * S * list event) : outcome A := r.1.1.
Definition final {S A} (r : outcome A * S * list event) : S := r.1.2.
Definition trace {S A} (r : outcome A * S * list event) : list event := r.2.

(** ** The Python operations the methods use *)

(** [v[key]] for a string [key]: only a dict can be subscripted by a string. *)
Definition getitem (v : pyval) (key : string) : outcome pyval :=
  match v with
  | PDict d => match d !! key with
               | Some x => Returned x
               | None => Raised (KeyError key)
               end
  | _ => Raised TypeError
  end.

(** [v[key] = x] for a string [key], as the new value of [v]. *)
Definition setitem (v : pyval) (key : string) (x : pyval) : outcome pyval :=
  match v with
  | PDict d => Returned (PDict (<[key := x]> d))
  | _ => Raised TypeError
  end.

(** [v[k1]...[kn][key] = x]: the keys [k1 .. kn] are read, the last one is
    written.  The dicts along the path are shared objects in Python; here the
    updated inner dict is stored back in its parent. *)
Fixpoint setitem_at (v : pyval) (path : list string) (key : string) (x : pyval)
  : outcome pyval :=
  match path with
  | [] => setitem v key x
  | k :: path' =>
      match getitem v k with
      | Returned inner =>
          match setitem_at inner path' key x with
          | Returned inner' => setitem v k inner'
          | Exited msg => Exited msg
          | Raised e => Raised e
          end
      | Exited msg => Exited msg
      | Raised e => Raised e
      end
  end.

(** The elements a [for] loop over [v] visits.  A dict yields its keys (here
    in the order of the map) and a str its characters. *)
Definition iter (v : pyval) : outcome (list pyval) :=
  match v with
  | PList l | PTuple l => Returned l
  | PDict d => Returned (PStr <$> (map_to_list d).*1)
  | PStr s => Returned ((λ c, PStr (String c EmptyString)) <$> String.list_ascii_of_string s)
  | PNone | PBool _ | PInt _ => Raised TypeError
  end.

(** [v.items()]. *)
Definition items (v : pyval) : outcome (list (string * pyval)) :=
  match v with
  | PDict d => Returned (map_to_list d)
  | _ => Raised TypeError
  end.

(** [v in l] for a list [l] of strings: only an equal str is a member. *)
Definition eq_str (v : pyval) (s : string) : bool :=
  match v with PStr s' => bool_decide (s' = s) | _ => false end.

Definition contains (l : list string) (v : pyval) : bool := existsb (eq_str v) l.

(** The loop [for x in l: body], threading the variables the body assigns. *)
Fixpoint for_each {S A B} (l : list A) (b : B) (body : B → A → act S B) : act S B :=
  match l with
  | [] => mret b
  | x :: l' => b' ← body b x; for_each l' b' body
  end.

(** The double quote, for the messages that contain one. *)
Definition dq : string := String (Ascii.ascii_of_nat 34) EmptyString.

(** ** The transport *)

(** The [Api] base class, as far as [Cluster] uses it.  Each operation may
    change the state of the transport and ends like any call. *)
Record Api (S : Type) : Type := {
  api_get : string → string → option pyval → option bool → S → outcome pyval * S;
  api_post : string → string → pyval → option pyval → option bool → S → outcome pyval * S;
  api_object_id : pyval → pyval → S → outcome pyval * S;
}.
Arguments api_get {S} _ _ _ _ _ _.
Arguments api_post {S} _ _ _ _ _ _ _.
Arguments api_object_id {S} _ _ _ _.

Section Cluster.
Context {S : Type}.
Variable api : Api S.

(** Python's [str()], which [str.format] applies to the argument of a
    [{}] field: a builtin of the language. *)
Variable py_str : pyval → string.

(** [self.log(msg)], the side channel of the transport, and [print(v)]:
    each leaves one line in the trace. *)
Definition log (msg : string) : act S () :=
  λ s, (Returned (), s, [EvLog msg]).

Definition print (v : pyval) : act S () :=
  λ s, (Returned (), s, [EvPrint v]).

(** [self.get], [self.post] and [self.object_id]: the call is recorded with
    its arguments and the transport decides how it ends. *)
Definition get (api_version endpoint : string)
    (timeout : option pyval) (authentication : option bool) : act S pyval :=
  λ s, let '(o, s') := api_get api api_version endpoint timeout authentication s in
       (o, s', [EvGet api_version endpoint timeout authentication]).

Definition post (api_version endpoint : string) (body : pyval)
    (timeout : option pyval) (authentication : option bool) : act S pyval :=
  λ s, let '(o, s') := api_post api api_version endpoint body timeout authentication s in
       (o, s', [EvPost api_version endpoint body timeout authentication]).

Definition object_id (name object_type : pyval) : act S pyval :=
  λ s, let '(o, s') := api_object_id api name object_type s in
       (o, s', [EvObjectId name object_type]).

(** *** cluster_version *)
Definition cluster_version (timeout : pyval) : act S pyval :=
  log "cluster_version: Getting the software version of the Rubrik Cluster.";;
  api_request ← get "v1" "/cluster/me/version" (Some timeout) None;
  mret api_request.

(** *** cluster_node_ip *)
Definition cluster_node_ip (timeout : pyval) : act S pyval :=
  log "cluster_node_ip: Generating a list of all Cluster Node IPs.";;
  api_request ← get "internal" "/cluster/me/node" (Some timeout) None;
  let node_ip_list := [] in
  data ← lift (getitem api_request "data");
  nodes ← lift (iter data);
  node_ip_list ← for_each nodes node_ip_list (λ node_ip_list node,
    ip ← lift (getitem node "ipAddress");
    mret (node_ip_list ++ [ip]));
  mret (PList node_ip_list).

(** *** bootstrap *)

Definition bootstrap (cluster_name admin_email admin_password management_gateway
    management_subnet_mask enable_encryption node_config dns_search_domains
    dns_nameservers ntp_servers timeout : pyval) : act S pyval :=
  (if is_none node_config || negb (isinstance_dict node_config) then
     sys_exit ("Error: You must provide a valid dictionary for "
               +:+ dq +:+ "node_config" +:+ dq +:+ ".")
   else mret ());;
  dns_search_domains ←
    (if is_none dns_search_domains then mret (PList [])
     else if negb (isinstance_list dns_search_domains) then
       sys_exit ("Error: You must provide a valid list for "
                 +:+ dq +:+ "dns_search_domains" +:+ dq +:+ ".")
     else mret dns_search_domains);
  dns_nameservers ←
    (if is_none dns_nameservers then mret (PList [PStr "8.8.8.8"])
     else if negb (isinstance_list dns_nameservers) then
       sys_exit ("Error: You must provide a valid list for "
                 +:+ dq +:+ "dns_nameservers" +:+ dq +:+ ".")
     else mret dns_nameservers);
  ntp_servers ←
    (if is_none ntp_servers then mret (PList [PStr "pool.ntp.org"])
     else if negb (isinstance_list ntp_servers) then
       sys_exit ("Error: You must provide a valid list for "
                 +:+ dq +:+ "ntp_servers" +:+ dq +:+ ".")
     else mret ntp_servers);
  let bootstrap_config := PDict ∅ in
  bootstrap_config ← lift (setitem bootstrap_config "enableSoftwareEncryptionAtRest" enable_encryption);
  bootstrap_config ← lift (setitem bootstrap_config "name" cluster_name);
  bootstrap_config ← lift (setitem bootstrap_config "dnsNameservers" dns_nameservers);
  bootstrap_config ← lift (setitem bootstrap_config "dnsSearchDomains" dns_search_domains);
  bootstrap_config ← lift (setitem bootstrap_config "ntpServers" ntp_servers);
  bootstrap_config ← lift (setitem bootstrap_config "adminUserInfo" (PDict ∅));
  bootstrap_config ← lift (setitem_at bootstrap_config ["adminUserInfo"] "password" admin_password);
  bootstrap_config ← lift (setitem_at bootstrap_config ["adminUserInfo"] "emailAddress" admin_email);
  bootstrap_config ← lift (setitem_at bootstrap_config ["adminUserInfo"] "id" (PStr "admin"));
  bootstrap_config ← lift (setitem bootstrap_config "nodeConfigs" (PDict ∅));
  node_items ← lift (items node_config);
  bootstrap_config ← for_each node_items bootstrap_config
    (λ bootstrap_config '(node_name, node_ip),
      bootstrap_config ← lift (setitem_at bootstrap_config
        ["nodeConfigs"] node_name (PDict ∅));
      bootstrap_config ← lift (setitem_at bootstrap_config
        ["nodeConfigs"; node_name] "managementIpConfig" (PDict ∅));
      bootstrap_config ← lift (setitem_at bootstrap_config
        ["nodeConfigs"; node_name; "managementIpConfig"] "netmask" management_subnet_mask);
      bootstrap_config ← lift (setitem_at bootstrap_config
        ["nodeConfigs"; node_name; "managementIpConfig"] "gateway" management_gateway);
      bootstrap_config ← lift (setitem_at bootstrap_config
        ["nodeConfigs"; node_name; "managementIpConfig"] "address" node_ip);
      mret bootstrap_config);
  log "bootstrap: Starting the bootstrap process.";;
  api_request ← post "internal" "/cluster/me/bootstrap" bootstrap_config
                     (Some timeout) (Some false);
  mret api_request.

(** *** bootstrap_status *)
Definition bootstrap_status (request_id timeout : pyval) : act S pyval :=
  let bootstrap_status_api_endpoint :=
    "/cluster/me/bootstrap?request_id=" +:+ py_str request_id in
  log "bootstrap_status: Getting the status of the Rubrik Cluster bootstrap.";;
  api_request ← get "internal" bootstrap_status_api_endpoint (Some timeout) (Some false);
  mret api_request.

(** *** end_user_authorization *)
Definition valid_object_type : list string := ["vmware"].

Definition end_user_authorization (object_name end_user object_type timeout : pyval)
  : act S pyval :=
  (if negb (contains valid_object_type object_type) then
     sys_exit ("Error: The end_user_authorization() object_type argument must be one of the following: "
               +:+ py_str (PList (PStr <$> valid_object_type)) +:+ ".")
   else mret ());;
  log ("end_user_authorization: Searching the Rubrik Cluster for the vSphere VM '"
       +:+ py_str object_name +:+ "'.");;
  vm_id ← object_id object_name object_type;
  log ("end_user_authorization: Searching the Rubrik Cluster for the End User '"
       +:+ py_str end_user +:+ "'.");;
  user_id ← get "internal" ("/user?username=" +:+ py_str end_user) None None;
  print user_id;;
  mret PNone.

End Cluster.

(** ** A transport and a [str()] for the examples *)

(** Every request is answered with a fixed value; the state counts the
    requests served. *)
Definition canned (get_response post_response id_response : pyval) : Api nat := {|
  api_get := λ _ _ _ _ n, (Returned get_response, n + 1);
  api_post := λ _ _ _ _ _ n, (Returned post_response, n + 1);
  api_object_id := λ _ _ n, (Returned id_response, n + 1);
|}.

(** Python's [str()] on the values the examples format: [None], bools, ints,
    strs, and lists of such scalars.  [repr_plain] is [repr()] of a scalar,
    exact for a str that holds no quote, backslash or control character
    (which [repr()] would escape).  Tuples, dicts and nested lists are not
    rendered: they get a placeholder, which is not what Python prints, and no
    example formats one. *)
Definition repr_plain (v : pyval) : string :=
  match v with
  | PStr s => "'" +:+ s +:+ "'"
  | PNone => "None"
  | PBool true => "True"
  | PBool false => "False"
  | PInt n => pretty n
  | _ => "object"
  end.

Definition str_scalar (v : pyval) : string :=
  match v with
  | PStr s => s
  | PNone => "None"
  | PBool true => "True"
  | PBool false => "False"
  | PInt n => pretty n
  | PList l => "[" +:+ String.concat ", " (repr_plain <$> l) +:+ "]"
  | _ => "object"
  end.

(** A dict display [{k1: v1, ..., kn: vn}]. *)
Definition dict (l : list (string * pyval)) : pyval := PDict (list_to_map l).

(** ** What bootstrap posts, in closed form

    These definitions describe the request body as a whole; the lemma
    [bootstrap_run] proves that the code builds exactly this dictionary. *)

(** An optional argument after its [None] check. *)
Definition or_default (default v : pyval) : pyval :=
  if is_none v then default else v.

(** An optional list argument that passes its check. *)
Definition list_arg_ok (v : pyval) : bool := is_none v || isinstance_list v.

Definition management_ip_config (netmask gateway address : pyval) : pyval :=
  dict [("netmask", netmask); ("gateway", gateway); ("address", address)].

Definition node_entry (netmask gateway address : pyval) : pyval :=
  dict [("managementIpConfig", management_ip_config netmask gateway address)].

Definition admin_user_info (admin_email admin_password : pyval) : pyval :=
  dict [("password", admin_password); ("emailAddress", admin_email);
        ("id", PStr "admin")].

Definition posted_config (cluster_name admin_email admin_password management_gateway
    management_subnet_mask enable_encryption : pyval) (node_config : gmap string pyval)
    (dns_search_domains dns_nameservers ntp_servers : pyval) : pyval :=
  dict [("enableSoftwareEncryptionAtRest", enable_encryption);
        ("name", cluster_name);
        ("dnsNameservers", or_default (PList [PStr "8.8.8.8"]) dns_nameservers);
        ("dnsSearchDomains", or_default (PList []) dns_search_domains);
        ("ntpServers", or_default (PList [PStr "pool.ntp.org"]) ntp_servers);
        ("adminUserInfo", admin_user_info admin_email admin_password);
        ("nodeConfigs",
         PDict (node_entry management_subnet_mask management_gateway <$> node_config))].

(** ** Vocabulary of the statements *)

(** The Python sequences among the values: list, tuple and str. *)
Definition is_sequence (v : pyval) : bool :=
  match v with PList _ | PTuple _ | PStr _ => true | _ => false end.

(** An optional argument that is given (not [None]) and is no sequence. *)
Definition non_sequence_override (v : pyval) : bool :=
  negb (is_none v) && negb (is_sequence v).

(** A required scalar argument as its docstring wants it: a non-empty str. *)
Definition non_empty_str (v : pyval) : bool :=
  match v with PStr s => negb (bool_decide (s = EmptyString)) | _ => false end.

(** The message of the [node_config] check. *)
Definition node_config_error : string :=
  "Error: You must provide a valid dictionary for " +:+ dq +:+ "node_config" +:+ dq +:+ ".".

(** The two lines bootstrap leaves in the trace when it posts [body]. *)
Definition bootstrap_trace (body timeout : pyval) : list event :=
  [EvLog "bootstrap: Starting the bootstrap process.";
   EvPost "internal" "/cluster/me/bootstrap" body (Some timeout) (Some false)].

(** The trace of [cluster_node_ip]. *)
Definition node_ip_trace (timeout : pyval) : list event :=
  [EvLog "cluster_node_ip: Generating a list of all Cluster Node IPs.";
   EvGet "internal" "/cluster/me/node" (Some timeout) None].

(** The five events of an [end_user_authorization] call that goes through. *)
Definition authorization_trace (py_str : pyval → string)
    (object_name end_user object_type user_id : pyval) : list event :=
  [EvLog ("end_user_authorization: Searching the Rubrik Cluster for the vSphere VM '"
          +:+ py_str object_name +:+ "'.");
   EvObjectId object_name object_type;
   EvLog ("end_user_authorization: Searching the Rubrik Cluster for the End User '"
          +:+ py_str end_user +:+ "'.");
   EvGet "internal" ("/user?username=" +:+ py_str end_user) None None;
   EvPrint user_id].

(** A [GET] in the trace was issued without a timeout of the caller's. *)
Definition get_without_timeout (e : event) : bool :=
  match e with
  | EvGet _ _ (Some _) _ => false
  | _ => true
  end.

(** ** Vocabulary of the further properties *)

(** A call that did not return: it exited or raised. *)
Definition failed {A} (o : outcome A) : bool :=
  match o with Returned _ => false | _ => true end.

(** The requests among the events, and the POSTs among the requests. *)
Definition is_request (e : event) : bool :=
  match e with
  | EvGet _ _ _ _ | EvPost _ _ _ _ _ | EvObjectId _ _ => true
  | EvLog _ | EvPrint _ => false
  end.

Definition is_post (e : event) : bool :=
  match e with EvPost _ _ _ _ _ => true | _ => false end.

(** The values a [for] loop can run over. *)
Definition is_iterable (v : pyval) : bool :=
  match v with PNone | PBool _ | PInt _ => false | _ => true end.

(** The message of the check of the optional list argument [name]. *)
Definition list_error (name : string) : string :=
  "Error: You must provide a valid list for " +:+ dq +:+ name +:+ dq +:+ ".".

(** The four checks of [bootstrap] together. *)
Definition bootstrap_checks_pass
    (node_config dns_search_domains dns_nameservers ntp_servers : pyval) : bool :=
  isinstance_dict node_config && list_arg_ok dns_search_domains
    && list_arg_ok dns_nameservers && list_arg_ok ntp_servers.

(** A transport for the examples that ends each kind of request in a fixed
    way, failures included; the state counts the requests it was given. *)
Definition replying (get_outcome post_outcome id_outcome : outcome pyval) : Api nat := {|
  api_get := λ _ _ _ _ n, (get_outcome, n + 1);
  api_post := λ _ _ _ _ _ n, (post_outcome, n + 1);
  api_object_id := λ _ _ n, (id_outcome, n + 1);
|}.

(** ** Monad laws used to run a method body *)

Lemma bind_lift_returned {S A B} (a : A) (f : A → act S B) (s : S) :
  (lift (Returned a) ≫= f) s = f a s.
Proof.
  unfold mbind, act_mbind, act_bind, lift.
  destruct (f a s) as [[o s2] t2]. reflexivity.
Qed.

Lemma bind_mret {S A B} (a : A) (f : A → act S B) (s : S) :
  (mret a ≫= f) s = f a s.
Proof.
  unfold mbind, act_mbind, act_bind, mret, act_mret, act_ret.
  destruct (f a s) as [[o s2] t2]. reflexivity.
Qed.

Lemma bind_log {S B} (msg : string) (f : () → act S B) (s : S) :
  (log msg ≫= f) s = (result (f () s), final (f () s), EvLog msg :: trace (f () s)).
Proof.
  unfold mbind, act_mbind, act_bind, log, result, final, trace.
  destruct (f () s) as [[o s2] t2]. reflexivity.
Qed.

Lemma bind_returned {S A B} (m : act S A) (f : A → act S B) a s s1 :
  m s = (Returned a, s1, []) → (m ≫= f) s = f a s1.
Proof.
  intros H. unfold mbind, act_mbind, act_bind. rewrite H.
  destruct (f a s1) as [[o s2] t2]. reflexivity.
Qed.

Lemma bind_raised {S A B} (m : act S A) (f : A → act S B) e s s1 t :
  m s = (Raised e, s1, t) → (m ≫= f) s = (Raised e, s1, t).
Proof. intros H. unfold mbind, act_mbind, act_bind. by rewrite H. Qed.

(** ** Subscripting and nested assignment *)

Lemma getitem_some (d : gmap string pyval) k x :
  d !! k = Some x → getitem (PDict d) k = Returned x.
Proof. intros H. unfold getitem. by rewrite H. Qed.

Lemma getitem_none (d : gmap string pyval) k :
  d !! k = None → getitem (PDict d) k = Raised (KeyError k).
Proof. intros H. unfold getitem. by rewrite H. Qed.

Lemma getitem_insert (d : gmap string pyval) k x :
  getitem (PDict (<[k := x]> d)) k = Returned x.
Proof. unfold getitem. by rewrite lookup_insert_eq. Qed.

Lemma setitem_at_insert (d : gmap string pyval) k inner inner' path key x :
  setitem_at inner path key x = Returned inner' →
  setitem_at (PDict (<[k := inner]> d)) (k :: path) key x
  = Returned (PDict (<[k := inner']> d)).
Proof.
  intros H. cbn [setitem_at]. rewrite getitem_insert, H.
  unfold setitem. by rewrite insert_insert_eq.
Qed.

Lemma setitem_at_nil (d : gmap string pyval) key x :
  setitem_at (PDict d) [] key x = Returned (PDict (<[key := x]> d)).
Proof. reflexivity. Qed.

(** ** Loops whose body neither fails nor calls the transport *)

Lemma for_each_invariant {S A B C} (R : C → B → Prop) (g : C → A → C)
    (body : B → A → act S B) (l : list A) :
  (∀ c b x s, R c b → ∃ b', body b x s = (Returned b', s, []) ∧ R (g c x) b') →
  ∀ c b s, R c b →
    ∃ b', for_each l b body s = (Returned b', s, []) ∧ R (foldl g c l) b'.
Proof.
  intros Hbody. induction l as [|x l IH]; intros c b s HR.
  - exists b. split; [reflexivity | exact HR].
  - destruct (Hbody c b x s HR) as (b1 & Hb1 & HR1).
    destruct (IH (g c x) b1 s HR1) as (b' & Hb' & HR').
    exists b'. split; [|exact HR'].
    cbn [for_each]. unfold mbind, act_mbind, act_bind.
    by rewrite Hb1, Hb'.
Qed.

(** Inserting one entry per item of a dict, in any order of the items, maps
    the dict. *)
Lemma foldl_insert_lookup {V W} (f : V → W) (l : list (string * V)) :
  NoDup l.*1 →
  ∀ (m : gmap string W) k,
    foldl (λ m '(k, v), <[k := f v]> m) m l !! k
    = match (list_to_map l : gmap string V) !! k with
      | Some v => Some (f v)
      | None => m !! k
      end.
Proof.
  induction l as [|[k1 v1] l IH]; intros Hnd m k; [done|].
  apply NoDup_cons in Hnd as [Hk1 Hnd]. cbn [foldl list_to_map foldr].
  rewrite (IH Hnd). destruct (decide (k1 = k)) as [->|Hne].
  - rewrite !lookup_insert_eq.
    by rewrite (not_elem_of_list_to_map_1 _ _ Hk1).
  - by rewrite !lookup_insert_ne.
Qed.

Lemma foldl_insert_fmap {V W} (f : V → W) (m : gmap string V) :
  foldl (λ m '(k, v), <[k := f v]> m) ∅ (map_to_list m) = f <$> m.
Proof.
  apply map_eq. intros k.
  rewrite foldl_insert_lookup by apply NoDup_fst_map_to_list.
  rewrite list_to_map_to_list, lookup_fmap, lookup_empty.
  by destruct (m !! k).
Qed.

Ltac run_pure :=
  repeat first
    [ progress cbn [setitem items]
    | rewrite bind_lift_returned
    | erewrite setitem_at_insert
        by (repeat first [apply setitem_at_nil | eapply setitem_at_insert]) ].

Section Bootstrap.
Context {S : Type}.
Variable api : Api S.

(** One of the three checks of an optional list argument, when it passes. *)
Lemma bind_list_check (name : string) (d v : pyval) {B} (f : pyval → act S B) s :
  list_arg_ok v = true →
  ((if is_none v then mret d
    else if negb (isinstance_list v) then
      sys_exit ("Error: You must provide a valid list for "
                +:+ dq +:+ name +:+ dq +:+ ".")
    else mret v) ≫= f) s = f (or_default d v) s.
Proof.
  intros Hv. unfold or_default.
  destruct v; try discriminate Hv; cbn [is_none isinstance_list negb];
    apply bind_mret.
Qed.

Lemma bootstrap_run cluster_name admin_email admin_password management_gateway
    management_subnet_mask enable_encryption node_config dns_search_domains
    dns_nameservers ntp_servers timeout s :
  list_arg_ok dns_search_domains = true →
  list_arg_ok dns_nameservers = true →
  list_arg_ok ntp_servers = true →
  let body := posted_config cluster_name admin_email admin_password management_gateway
                management_subnet_mask enable_encryption node_config
                dns_search_domains dns_nameservers ntp_servers in
  let r := api_post api "internal" "/cluster/me/bootstrap" body
             (Some timeout) (Some false) s in
  bootstrap api cluster_name admin_email admin_password management_gateway
    management_subnet_mask enable_encryption (PDict node_config) dns_search_domains
    dns_nameservers ntp_servers timeout s
  = (r.1, r.2, bootstrap_trace body timeout).
Proof.
  intros Hsd Hns Hntp body r. subst r body. unfold bootstrap.
  cbn [is_none isinstance_dict negb orb]. rewrite bind_mret.
  rewrite (bind_list_check "dns_search_domains") by done.
  rewrite (bind_list_check "dns_nameservers") by done.
  rewrite (bind_list_check "ntp_servers") by done.
  run_pure.
  match goal with
  | |- (for_each _ (PDict (<[_ := _]> ?base)) ?loop ≫= _) _ = _ =>
      destruct (for_each_invariant
        (λ ncs b, b = PDict (<["nodeConfigs" := PDict ncs]> base))
        (λ ncs '(k, ip), <[k := node_entry management_subnet_mask management_gateway ip]> ncs)
        loop (map_to_list node_config)) with (c := (∅ : gmap string pyval))
        (b := PDict (<["nodeConfigs" := PDict ∅]> base)) (s := s)
        as (b' & Hb' & ->)
  end.
  { intros ncs b [node_name node_ip] s0 ->. eexists. split.
    - run_pure. reflexivity.
    - reflexivity. }
  { reflexivity. }
  rewrite (bind_returned _ _ _ _ _ Hb'), foldl_insert_fmap, bind_log.
  unfold mbind, act_mbind, act_bind, post, result, final, trace.
  unfold bootstrap_trace.
  match goal with
  | |- context [api_post api _ _ ?b _ _ s] =>
      change b with (posted_config cluster_name admin_email admin_password
        management_gateway management_subnet_mask enable_encryption node_config
        dns_search_domains dns_nameservers ntp_servers)
  end.
  destruct (api_post api _ _ _ _ _ s) as [[v|msg|e] s1]; reflexivity.
Qed.

(** Outside the case of [bootstrap_run] the process ends at one of the four
    checks, before anything was logged or sent. *)
Lemma bootstrap_exits cluster_name admin_email admin_password management_gateway
    management_subnet_mask enable_encryption node_config dns_search_domains
    dns_nameservers ntp_servers timeout s :
  isinstance_dict node_config && list_arg_ok dns_search_domains
    && list_arg_ok dns_nameservers && list_arg_ok ntp_servers = false →
  ∃ msg,
    bootstrap api cluster_name admin_email admin_password management_gateway
      management_subnet_mask enable_encryption node_config dns_search_domains
      dns_nameservers ntp_servers timeout s
    = (Exited msg, s, []).
Proof.
  intros Hbad. unfold bootstrap.
  destruct (isinstance_dict node_config) eqn:Hnc.
  2:{ eexists. destruct node_config; try discriminate Hnc; reflexivity. }
  destruct node_config; try discriminate Hnc.
  cbn [is_none isinstance_dict negb orb]. rewrite bind_mret.
  destruct (list_arg_ok dns_search_domains) eqn:Hsd.
  2:{ eexists. destruct dns_search_domains; try discriminate Hsd; reflexivity. }
  rewrite (bind_list_check "dns_search_domains") by done.
  destruct (list_arg_ok dns_nameservers) eqn:Hns.
  2:{ eexists. destruct dns_nameservers; try discriminate Hns; reflexivity. }
  rewrite (bind_list_check "dns_nameservers") by done.
  destruct (list_arg_ok ntp_servers) eqn:Hntp; [discriminate Hbad|].
  eexists. destruct ntp_servers; try discriminate Hntp; reflexivity.
Qed.

End Bootstrap.

(** ** Reading the posted body *)

Lemma getitem_posted_config cluster_name admin_email admin_password management_gateway
    management_subnet_mask enable_encryption node_config dns_search_domains
    dns_nameservers ntp_servers :
  let body := posted_config cluster_name admin_email admin_password management_gateway
                management_subnet_mask enable_encryption node_config
                dns_search_domains dns_nameservers ntp_servers in
  getitem body "enableSoftwareEncryptionAtRest" = Returned enable_encryption
  ∧ getitem body "name" = Returned cluster_name
  ∧ getitem body "dnsNameservers"
    = Returned (or_default (PList [PStr "8.8.8.8"]) dns_nameservers)
  ∧ getitem body "dnsSearchDomains" = Returned (or_default (PList []) dns_search_domains)
  ∧ getitem body "ntpServers"
    = Returned (or_default (PList [PStr "pool.ntp.org"]) ntp_servers)
  ∧ getitem body "adminUserInfo" = Returned (admin_user_info admin_email admin_password)
  ∧ getitem body "nodeConfigs"
    = Returned (PDict (node_entry management_subnet_mask management_gateway <$> node_config)).
Proof. repeat split. Qed.

Lemma bootstrap_posts {S} (api : Api S) cluster_name admin_email admin_password
    management_gateway management_subnet_mask enable_encryption node_config
    dns_search_domains dns_nameservers ntp_servers timeout s :
  list_arg_ok dns_search_domains = true →
  list_arg_ok dns_nameservers = true →
  list_arg_ok ntp_servers = true →
  trace (bootstrap api cluster_name admin_email admin_password management_gateway
           management_subnet_mask enable_encryption (PDict node_config)
           dns_search_domains dns_nameservers ntp_servers timeout s)
  = bootstrap_trace
      (posted_config cluster_name admin_email admin_password management_gateway
         management_subnet_mask enable_encryption node_config
         dns_search_domains dns_nameservers ntp_servers) timeout.
Proof. intros Hsd Hns Hntp. by rewrite bootstrap_run. Qed.

(** * The claims about bootstrap *)

(** C1.  When [node_config] is a dict (and the optional lists pass their
    checks, so that the request is built), the posted body has under
    [nodeConfigs] one entry per key of [node_config] and no other, and the
    entry of a node is [{"managementIpConfig": {"netmask": management_subnet_mask,
    "gateway": management_gateway, "address": ip}}] with that node's ip. *)
Theorem bootstrap_node_configs {S} (api : Api S) cluster_name admin_email
    admin_password management_gateway management_subnet_mask enable_encryption
    (node_config : gmap string pyval) dns_search_domains dns_nameservers
    ntp_servers timeout s :
  list_arg_ok dns_search_domains = true →
  list_arg_ok dns_nameservers = true →
  list_arg_ok ntp_servers = true →
  ∃ body (node_configs : gmap string pyval),
    trace (bootstrap api cluster_name admin_email admin_password management_gateway
             management_subnet_mask enable_encryption (PDict node_config)
             dns_search_domains dns_nameservers ntp_servers timeout s)
    = bootstrap_trace body timeout
    ∧ getitem body "nodeConfigs" = Returned (PDict node_configs)
    ∧ dom node_configs = dom node_config
    ∧ ∀ node_name node_ip,
        node_config !! node_name = Some node_ip →
        node_configs !! node_name
        = Some (dict [("managementIpConfig",
                       dict [("netmask", management_subnet_mask);
                             ("gateway", management_gateway);
                             ("address", node_ip)])]).
Proof.
  intros Hsd Hns Hntp.
  exists (posted_config cluster_name admin_email admin_password management_gateway
            management_subnet_mask enable_encryption node_config
            dns_search_domains dns_nameservers ntp_servers),
         (node_entry management_subnet_mask management_gateway <$> node_config).
  split; [by apply bootstrap_posts|].
  split; [apply getitem_posted_config|].
  split; [apply dom_fmap_L|].
  intros node_name node_ip Hip. by rewrite lookup_fmap, Hip.
Qed.

Lemma bootstrap_node_configs_witness :
  ∃ body (node_configs : gmap string pyval),
    trace (bootstrap (canned PNone (PStr "accepted") PNone)
             (PStr "cluster-a") (PStr "admin@example.com") (PStr "secret")
             (PStr "10.0.0.254") (PStr "255.255.255.0") (PBool true)
             (PDict (list_to_map [("node1", PStr "10.0.0.1"); ("node2", PStr "10.0.0.2")]))
             PNone PNone PNone (PInt 15) 0)
    = bootstrap_trace body (PInt 15)
    ∧ getitem body "nodeConfigs" = Returned (PDict node_configs)
    ∧ dom node_configs
      = dom (list_to_map [("node1", PStr "10.0.0.1"); ("node2", PStr "10.0.0.2")]
             : gmap string pyval)
    ∧ ∀ node_name node_ip,
        (list_to_map [("node1", PStr "10.0.0.1"); ("node2", PStr "10.0.0.2")]
         : gmap string pyval) !! node_name = Some node_ip →
        node_configs !! node_name
        = Some (dict [("managementIpConfig",
                       dict [("netmask", PStr "255.255.255.0");
                             ("gateway", PStr "10.0.0.254");
                             ("address", node_ip)])]).
Proof.
  apply (bootstrap_node_configs (canned PNone (PStr "accepted") PNone));
    reflexivity.
Defined.

(** C2 (as the code has it).  The check on [node_config] is a type check:
    a value that is not a dict, [None] included, ends the process with the
    message of the check, before anything is logged or sent; a dict passes
    whatever it holds, and with the optional lists in order the request is
    posted. *)
Theorem bootstrap_validates_node_config {S} (api : Api S) cluster_name admin_email
    admin_password management_gateway management_subnet_mask enable_encryption
    node_config dns_search_domains dns_nameservers ntp_servers timeout s :
  (isinstance_dict node_config = false →
   bootstrap api cluster_name admin_email admin_password management_gateway
     management_subnet_mask enable_encryption node_config
     dns_search_domains dns_nameservers ntp_servers timeout s
   = (Exited node_config_error, s, []))
  ∧ (isinstance_dict node_config = true →
     list_arg_ok dns_search_domains = true →
     list_arg_ok dns_nameservers = true →
     list_arg_ok ntp_servers = true →
     ∃ body,
       trace (bootstrap api cluster_name admin_email admin_password management_gateway
                management_subnet_mask enable_encryption node_config
                dns_search_domains dns_nameservers ntp_servers timeout s)
       = bootstrap_trace body timeout).
Proof.
  split.
  - intros Hnc. destruct node_config; try discriminate Hnc; reflexivity.
  - intros Hnc Hsd Hns Hntp. destruct node_config; try discriminate Hnc.
    eexists. by apply bootstrap_posts.
Qed.

Lemma bootstrap_validates_node_config_witness :
  bootstrap (canned PNone (PStr "accepted") PNone)
    (PStr "cluster-a") (PStr "admin@example.com") (PStr "secret")
    (PStr "10.0.0.254") (PStr "255.255.255.0") (PBool true)
    (PList [PStr "10.0.0.1"]) PNone PNone PNone (PInt 15) 0
  = (Exited node_config_error, 0, [])
  ∧ ∃ body,
      trace (bootstrap (canned PNone (PStr "accepted") PNone)
               (PStr "cluster-a") (PStr "admin@example.com") (PStr "secret")
               (PStr "10.0.0.254") (PStr "255.255.255.0") (PBool true)
               (dict [("node1", PStr "10.0.0.1")]) PNone PNone PNone (PInt 15) 0)
      = bootstrap_trace body (PInt 15).
Proof.
  split.
  - apply (proj1 (bootstrap_validates_node_config
      (canned PNone (PStr "accepted") PNone) _ _ _ _ _ _ _ _ _ _ _ _)).
    reflexivity.
  - apply (proj2 (bootstrap_validates_node_config
      (canned PNone (PStr "accepted") PNone) _ _ _ _ _ _ _ _ _ _ _ _));
      reflexivity.
Defined.

(** C2, the claim as stated, fails on the empty dict: [bootstrap] with
    [node_config = {}] does not end the process; it posts a body whose
    [nodeConfigs] is empty and returns the transport's answer. *)
Lemma bootstrap_empty_node_config_proceeds :
  bootstrap (canned PNone (PStr "accepted") PNone)
    (PStr "cluster-a") (PStr "admin@example.com") (PStr "secret")
    (PStr "10.0.0.254") (PStr "255.255.255.0") (PBool true)
    (dict []) PNone PNone PNone (PInt 15) 0
  = (Returned (PStr "accepted"), 1,
     bootstrap_trace
       (dict [("enableSoftwareEncryptionAtRest", PBool true);
              ("name", PStr "cluster-a");
              ("dnsNameservers", PList [PStr "8.8.8.8"]);
              ("dnsSearchDomains", PList []);
              ("ntpServers", PList [PStr "pool.ntp.org"]);
              ("adminUserInfo",
               dict [("password", PStr "secret");
                     ("emailAddress", PStr "admin@example.com");
                     ("id", PStr "admin")]);
              ("nodeConfigs", dict [])])
       (PInt 15)).
Proof. vm_compute. reflexivity. Qed.

(** C3.  A [node_config] that is [None] or no dict, or an override of
    [dns_search_domains], [dns_nameservers] or [ntp_servers] that is no
    sequence, ends the process: the call exits with a message, the state of
    the transport is the one it started from and the trace is empty, so
    nothing was logged, looked up or posted. *)
Theorem bootstrap_invalid_never_reaches_transport {S} (api : Api S) cluster_name
    admin_email admin_password management_gateway management_subnet_mask
    enable_encryption node_config dns_search_domains dns_nameservers ntp_servers
    timeout s :
  isinstance_dict node_config = false
  ∨ non_sequence_override dns_search_domains = true
  ∨ non_sequence_override dns_nameservers = true
  ∨ non_sequence_override ntp_servers = true →
  ∃ msg,
    bootstrap api cluster_name admin_email admin_password management_gateway
      management_subnet_mask enable_encryption node_config
      dns_search_domains dns_nameservers ntp_servers timeout s
    = (Exited msg, s, []).
Proof.
  intros Hbad. apply bootstrap_exits.
  assert (Hseq : ∀ v, non_sequence_override v = true → list_arg_ok v = false)
    by (by intros []).
  destruct Hbad as [->|[H|[H|H]]]; [done|..]; rewrite (Hseq _ H);
    by rewrite ?andb_false_r.
Qed.

Lemma bootstrap_invalid_never_reaches_transport_witness :
  ∃ msg,
    bootstrap (canned PNone (PStr "accepted") PNone)
      (PStr "cluster-a") (PStr "admin@example.com") (PStr "secret")
      (PStr "10.0.0.254") (PStr "255.255.255.0") (PBool true)
      (dict [("node1", PStr "10.0.0.1")]) PNone (PInt 8) PNone (PInt 15) 0
    = (Exited msg, 0, []).
Proof.
  apply (bootstrap_invalid_never_reaches_transport
           (canned PNone (PStr "accepted") PNone)).
  right. right. left. reflexivity.
Defined.

(** C4.  In every call that gets as far as building the request
    ([node_config] a dict, the optional lists passing their checks), an
    omitted [dns_nameservers] is posted as [["8.8.8.8"]], an omitted
    [ntp_servers] as [["pool.ntp.org"]] and an omitted [dns_search_domains]
    as the empty list. *)
Theorem bootstrap_defaults {S} (api : Api S) cluster_name admin_email
    admin_password management_gateway management_subnet_mask enable_encryption
    (node_config : gmap string pyval) dns_search_domains dns_nameservers
    ntp_servers timeout s :
  list_arg_ok dns_search_domains = true →
  list_arg_ok dns_nameservers = true →
  list_arg_ok ntp_servers = true →
  ∃ body,
    trace (bootstrap api cluster_name admin_email admin_password management_gateway
             management_subnet_mask enable_encryption (PDict node_config)
             dns_search_domains dns_nameservers ntp_servers timeout s)
    = bootstrap_trace body timeout
    ∧ (dns_nameservers = PNone →
       getitem body "dnsNameservers" = Returned (PList [PStr "8.8.8.8"]))
    ∧ (ntp_servers = PNone →
       getitem body "ntpServers" = Returned (PList [PStr "pool.ntp.org"]))
    ∧ (dns_search_domains = PNone →
       getitem body "dnsSearchDomains" = Returned (PList [])).
Proof.
  intros Hsd Hns Hntp. eexists. split; [by apply bootstrap_posts|].
  repeat split; intros ->; apply getitem_posted_config.
Qed.

Lemma bootstrap_defaults_witness :
  ∃ body,
    trace (bootstrap (canned PNone (PStr "accepted") PNone)
             (PStr "cluster-a") (PStr "admin@example.com") (PStr "secret")
             (PStr "10.0.0.254") (PStr "255.255.255.0") (PBool true)
             (PDict (list_to_map [("node1", PStr "10.0.0.1")]))
             PNone PNone PNone (PInt 15) 0)
    = bootstrap_trace body (PInt 15)
    ∧ (PNone = PNone →
       getitem body "dnsNameservers" = Returned (PList [PStr "8.8.8.8"]))
    ∧ (PNone = PNone →
       getitem body "ntpServers" = Returned (PList [PStr "pool.ntp.org"]))
    ∧ (PNone = PNone →
       getitem body "dnsSearchDomains" = Returned (PList [])).
Proof.
  apply (bootstrap_defaults (canned PNone (PStr "accepted") PNone));
    reflexivity.
Defined.

(** C5 (as the code has it).  [bootstrap] checks [node_config] and the three
    optional lists and nothing else.  The five required scalars are not
    looked at: whatever they are, once those four checks pass the body is
    built with them as given and posted. *)
Theorem bootstrap_scalars_unchecked {S} (api : Api S) cluster_name admin_email
    admin_password management_gateway management_subnet_mask enable_encryption
    (node_config : gmap string pyval) dns_search_domains dns_nameservers
    ntp_servers timeout s :
  list_arg_ok dns_search_domains = true →
  list_arg_ok dns_nameservers = true →
  list_arg_ok ntp_servers = true →
  ∃ body (node_configs : gmap string pyval),
    trace (bootstrap api cluster_name admin_email admin_password management_gateway
             management_subnet_mask enable_encryption (PDict node_config)
             dns_search_domains dns_nameservers ntp_servers timeout s)
    = bootstrap_trace body timeout
    ∧ getitem body "name" = Returned cluster_name
    ∧ getitem body "adminUserInfo"
      = Returned (dict [("password", admin_password); ("emailAddress", admin_email);
                        ("id", PStr "admin")])
    ∧ getitem body "nodeConfigs" = Returned (PDict node_configs)
    ∧ map_Forall (λ _ entry, ∃ node_ip,
        entry = dict [("managementIpConfig",
                       dict [("netmask", management_subnet_mask);
                             ("gateway", management_gateway);
                             ("address", node_ip)])]) node_configs.
Proof.
  intros Hsd Hns Hntp. eexists _, _. split; [by apply bootstrap_posts|].
  split; [apply getitem_posted_config|].
  split; [apply getitem_posted_config|].
  split; [apply getitem_posted_config|].
  intros node_name entry Hentry. rewrite lookup_fmap in Hentry.
  destruct (node_config !! node_name) as [node_ip|]; [|done].
  exists node_ip. by simplify_eq/=.
Qed.

Lemma bootstrap_scalars_unchecked_witness :
  ∃ body (node_configs : gmap string pyval),
    trace (bootstrap (canned PNone (PStr "accepted") PNone)
             (PStr EmptyString) PNone (PInt 0) (PList []) (PBool false) (PBool true)
             (PDict (list_to_map [("node1", PStr "10.0.0.1")]))
             PNone PNone PNone (PInt 15) 0)
    = bootstrap_trace body (PInt 15)
    ∧ getitem body "name" = Returned (PStr EmptyString)
    ∧ getitem body "adminUserInfo"
      = Returned (dict [("password", PInt 0); ("emailAddress", PNone);
                        ("id", PStr "admin")])
    ∧ getitem body "nodeConfigs" = Returned (PDict node_configs)
    ∧ map_Forall (λ _ entry, ∃ node_ip,
        entry = dict [("managementIpConfig",
                       dict [("netmask", PBool false);
                             ("gateway", PList []);
                             ("address", node_ip)])]) node_configs.
Proof.
  apply (bootstrap_scalars_unchecked (canned PNone (PStr "accepted") PNone));
    reflexivity.
Defined.

(** C5, the claim as stated, fails: with an empty [cluster_name], [None] as
    [admin_email], an int as [admin_password], a list as gateway and a bool
    as netmask, none of them a non-empty str, the body is built and posted. *)
Lemma bootstrap_posts_invalid_scalars :
  forallb (λ v, negb (non_empty_str v))
    [PStr EmptyString; PNone; PInt 0; PList []; PBool false] = true
  ∧ bootstrap (canned PNone (PStr "accepted") PNone)
      (PStr EmptyString) PNone (PInt 0) (PList []) (PBool false) (PBool true)
      (dict [("node1", PStr "10.0.0.1")]) PNone PNone PNone (PInt 15) 0
    = (Returned (PStr "accepted"), 1,
       bootstrap_trace
         (dict [("enableSoftwareEncryptionAtRest", PBool true);
                ("name", PStr EmptyString);
                ("dnsNameservers", PList [PStr "8.8.8.8"]);
                ("dnsSearchDomains", PList []);
                ("ntpServers", PList [PStr "pool.ntp.org"]);
                ("adminUserInfo",
                 dict [("password", PInt 0); ("emailAddress", PNone);
                       ("id", PStr "admin")]);
                ("nodeConfigs",
                 dict [("node1",
                        dict [("managementIpConfig",
                               dict [("netmask", PBool false); ("gateway", PList []);
                                     ("address", PStr "10.0.0.1")])])])])
         (PInt 15)).
Proof. split; vm_compute; reflexivity. Qed.

(** ** Running cluster_node_ip *)

Lemma bind_get {S B} (api : Api S) api_version endpoint timeout authentication
    (f : pyval → act S B) s response s1 :
  api_get api api_version endpoint timeout authentication s = (Returned response, s1) →
  (get api api_version endpoint timeout authentication ≫= f) s
  = (result (f response s1), final (f response s1),
     EvGet api_version endpoint timeout authentication :: trace (f response s1)).
Proof.
  intros Hget. unfold mbind, act_mbind, act_bind, get, result, final, trace.
  rewrite Hget. destruct (f response s1) as [[o s2] t2]. reflexivity.
Qed.

(** The loop of [cluster_node_ip] over entries that all have an address. *)
Lemma node_loop_returns {S} entries ips (node_ip_list : list pyval) (s : S) :
  Forall2 (λ entry ip, getitem entry "ipAddress" = Returned ip) entries ips →
  for_each entries node_ip_list (λ node_ip_list node,
    ip ← lift (getitem node "ipAddress");
    mret (node_ip_list ++ [ip])) s
  = (Returned (node_ip_list ++ ips), s, []).
Proof.
  intros Hall. revert node_ip_list.
  induction Hall as [|entry ip entries ips Hip _ IH]; intros node_ip_list.
  - by rewrite app_nil_r.
  - cbn [for_each]. rewrite Hip.
    erewrite bind_returned by (rewrite bind_lift_returned; reflexivity).
    by rewrite IH, <- app_assoc.
Qed.

(** The loop stops at the first entry without an address. *)
Lemma node_loop_raises {S} good ips bad rest e (node_ip_list : list pyval) (s : S) :
  Forall2 (λ entry ip, getitem entry "ipAddress" = Returned ip) good ips →
  getitem bad "ipAddress" = Raised e →
  for_each (good ++ bad :: rest) node_ip_list (λ node_ip_list node,
    ip ← lift (getitem node "ipAddress");
    mret (node_ip_list ++ [ip])) s
  = (Raised e, s, []).
Proof.
  intros Hall Hbad. revert node_ip_list.
  induction Hall as [|entry ip entries ips Hip _ IH]; intros node_ip_list.
  - cbn [app for_each]. by rewrite Hbad.
  - cbn [app for_each]. rewrite Hip.
    erewrite bind_returned by (rewrite bind_lift_returned; reflexivity).
    apply IH.
Qed.

Lemma cluster_node_ip_run {S} (api : Api S) timeout s response s1 :
  api_get api "internal" "/cluster/me/node" (Some timeout) None s
  = (Returned response, s1) →
  ∀ r : outcome pyval * S * list event,
    (data ← lift (getitem response "data");
     nodes ← lift (iter data);
     node_ip_list ← for_each nodes [] (λ node_ip_list node,
       ip ← lift (getitem node "ipAddress");
       mret (node_ip_list ++ [ip]));
     mret (PList node_ip_list)) s1 = r →
    cluster_node_ip api timeout s = (result r, final r, node_ip_trace timeout ++ trace r).
Proof.
  intros Hget r <-. unfold cluster_node_ip.
  rewrite bind_log. by rewrite (bind_get _ _ _ _ _ _ _ _ _ Hget).
Qed.

(** * The claims about cluster_node_ip *)

(** C6.  When the transport answers with a dict whose [data] is a list of
    entries that each have an [ipAddress], [cluster_node_ip] returns the list
    of those addresses, in the order of the entries, after one log line and
    one GET. *)
Theorem cluster_node_ip_returns_addresses {S} (api : Api S) timeout s
    (response : gmap string pyval) s1 entries ips :
  api_get api "internal" "/cluster/me/node" (Some timeout) None s
  = (Returned (PDict response), s1) →
  response !! "data" = Some (PList entries) →
  Forall2 (λ entry ip, getitem entry "ipAddress" = Returned ip) entries ips →
  cluster_node_ip api timeout s = (Returned (PList ips), s1, node_ip_trace timeout).
Proof.
  intros Hget Hdata Hips.
  rewrite (cluster_node_ip_run _ _ _ _ _ Hget (Returned (PList ips), s1, [])).
  - reflexivity.
  - rewrite (getitem_some _ _ _ Hdata), bind_lift_returned.
    cbn [iter]. rewrite bind_lift_returned.
    erewrite bind_returned by (by apply node_loop_returns). reflexivity.
Qed.

Lemma cluster_node_ip_returns_addresses_witness :
  cluster_node_ip
    (canned (dict [("data", PList [dict [("ipAddress", PStr "10.0.0.1")];
                                   dict [("ipAddress", PStr "10.0.0.2")]])])
            PNone PNone)
    (PInt 15) 0
  = (Returned (PList [PStr "10.0.0.1"; PStr "10.0.0.2"]), 1, node_ip_trace (PInt 15)).
Proof.
  eapply (cluster_node_ip_returns_addresses
            (canned (dict [("data", PList [dict [("ipAddress", PStr "10.0.0.1")];
                                           dict [("ipAddress", PStr "10.0.0.2")]])])
                    PNone PNone)).
  - reflexivity.
  - reflexivity.
  - repeat constructor.
Defined.

(** C7 (as the code has it).  What the call ends with is decided by the
    first thing that cannot be subscripted or read.  A dict response without
    a [data] key ends it with [KeyError('data')].  When [data] is a list, the
    entries are read in order; if the first entry whose ['ipAddress'] cannot
    be read is a dict without that key, the call ends with
    [KeyError('ipAddress')], whatever the entries after it are.  Both are
    lookup errors.  A response that is no dict, or a first unreadable entry
    that is no dict, ends the call with [TypeError], which is no lookup
    error.  When every entry has an ['ipAddress'] no error is raised: the
    call returns a list. *)
Theorem cluster_node_ip_missing_key {S} (api : Api S) timeout s response s1 :
  api_get api "internal" "/cluster/me/node" (Some timeout) None s
  = (Returned response, s1) →
  (∀ d : gmap string pyval,
     response = PDict d →
     d !! "data" = None →
     cluster_node_ip api timeout s
     = (Raised (KeyError "data"), s1, node_ip_trace timeout))
  ∧ (∀ (d : gmap string pyval) good ips (bad : gmap string pyval) rest,
       response = PDict d →
       d !! "data" = Some (PList (good ++ PDict bad :: rest)) →
       Forall2 (λ entry ip, getitem entry "ipAddress" = Returned ip) good ips →
       bad !! "ipAddress" = None →
       cluster_node_ip api timeout s
       = (Raised (KeyError "ipAddress"), s1, node_ip_trace timeout))
  ∧ (isinstance_dict response = false →
     cluster_node_ip api timeout s
     = (Raised TypeError, s1, node_ip_trace timeout))
  ∧ (∀ (d : gmap string pyval) good ips bad rest,
       response = PDict d →
       d !! "data" = Some (PList (good ++ bad :: rest)) →
       Forall2 (λ entry ip, getitem entry "ipAddress" = Returned ip) good ips →
       isinstance_dict bad = false →
       cluster_node_ip api timeout s
       = (Raised TypeError, s1, node_ip_trace timeout))
  ∧ (∀ (d : gmap string pyval) entries,
       response = PDict d →
       d !! "data" = Some (PList entries) →
       Forall (λ entry, ∃ ip, getitem entry "ipAddress" = Returned ip) entries →
       ∃ ips,
         cluster_node_ip api timeout s
         = (Returned (PList ips), s1, node_ip_trace timeout))
  ∧ is_lookup_error (KeyError "data") = true
  ∧ is_lookup_error (KeyError "ipAddress") = true
  ∧ is_lookup_error TypeError = false.
Proof.
  intros Hget.
  assert (Hstop : ∀ (d : gmap string pyval) good ips bad rest e,
    response = PDict d →
    d !! "data" = Some (PList (good ++ bad :: rest)) →
    Forall2 (λ entry ip, getitem entry "ipAddress" = Returned ip) good ips →
    getitem bad "ipAddress" = Raised e →
    cluster_node_ip api timeout s = (Raised e, s1, node_ip_trace timeout)).
  { intros d good ips bad rest e -> Hdata Hgood Hbad.
    rewrite (cluster_node_ip_run _ _ _ _ _ Hget (Raised e, s1, []));
      [reflexivity|].
    rewrite (getitem_some _ _ _ Hdata), bind_lift_returned.
    cbn [iter]. rewrite bind_lift_returned.
    apply bind_raised. by eapply node_loop_raises. }
  split; [|split; [|split; [|split; [|split; [|done]]]]].
  - intros d -> Hdata.
    rewrite (cluster_node_ip_run _ _ _ _ _ Hget (Raised (KeyError "data"), s1, []));
      [reflexivity|].
    by rewrite (getitem_none _ _ Hdata).
  - intros d good ips bad rest Hd Hdata Hgood Hbad.
    eapply Hstop; [done..|]. by apply getitem_none.
  - intros Hdict.
    rewrite (cluster_node_ip_run _ _ _ _ _ Hget (Raised TypeError, s1, []));
      [reflexivity|].
    by destruct response.
  - intros d good ips bad rest Hd Hdata Hgood Hbad.
    eapply Hstop; [done..|]. by destruct bad.
  - intros d entries -> Hdata Hall.
    assert (∃ ips, Forall2 (λ entry ip, getitem entry "ipAddress" = Returned ip)
                     entries ips) as [ips Hips].
    { clear Hdata. induction Hall as [|entry entries [ip Hip] _ [ips Hips]].
      - by exists [].
      - exists (ip :: ips). by constructor. }
    exists ips.
    rewrite (cluster_node_ip_run _ _ _ _ _ Hget (Returned (PList ips), s1, [])).
    + reflexivity.
    + rewrite (getitem_some _ _ _ Hdata), bind_lift_returned.
      cbn [iter]. rewrite bind_lift_returned.
      erewrite bind_returned by (by apply node_loop_returns). reflexivity.
Qed.

Lemma cluster_node_ip_missing_key_witness :
  cluster_node_ip (canned (dict [("total", PInt 0)]) PNone PNone) (PInt 15) 0
  = (Raised (KeyError "data"), 1, node_ip_trace (PInt 15))
  ∧ cluster_node_ip
      (canned (dict [("data", PList [dict [("ipAddress", PStr "10.0.0.1")];
                                     dict [("hostname", PStr "node2")];
                                     PInt 5])])
              PNone PNone)
      (PInt 15) 0
    = (Raised (KeyError "ipAddress"), 1, node_ip_trace (PInt 15)).
Proof.
  split.
  - eapply (proj1 (cluster_node_ip_missing_key
      (canned (dict [("total", PInt 0)]) PNone PNone)
      (PInt 15) 0 _ 1 eq_refl)); reflexivity.
  - eapply (proj1 (proj2 (cluster_node_ip_missing_key
      (canned (dict [("data", PList [dict [("ipAddress", PStr "10.0.0.1")];
                                     dict [("hostname", PStr "node2")];
                                     PInt 5])])
              PNone PNone)
      (PInt 15) 0 _ 1 eq_refl)) _
      [dict [("ipAddress", PStr "10.0.0.1")]] [PStr "10.0.0.1"]
      (list_to_map [("hostname", PStr "node2")]) [PInt 5]).
    + reflexivity.
    + reflexivity.
    + repeat constructor.
    + reflexivity.
Defined.

(** C7, the claim as stated, fails: in [{"data": [5, {"hostname": "node2"}]}]
    the second entry has no [ipAddress] key, yet the call ends with the
    [TypeError] of subscripting [5], which is no lookup error; the
    missing-key branch is not reached. *)
Lemma cluster_node_ip_missing_key_not_lookup_error :
  getitem (dict [("hostname", PStr "node2")]) "ipAddress"
  = Raised (KeyError "ipAddress")
  ∧ cluster_node_ip
      (canned (dict [("data", PList [PInt 5; dict [("hostname", PStr "node2")]])])
              PNone PNone)
      (PInt 15) 0
    = (Raised TypeError, 1, node_ip_trace (PInt 15))
  ∧ is_lookup_error TypeError = false.
Proof. repeat split; vm_compute; reflexivity. Qed.

(** ** Running end_user_authorization *)

Lemma contains_valid_object_type object_type :
  contains valid_object_type object_type = true ↔ object_type = PStr "vmware".
Proof.
  unfold contains, valid_object_type. cbn [existsb]. rewrite orb_false_r.
  destruct object_type; cbn [eq_str]; try (split; [discriminate|discriminate]).
  rewrite bool_decide_eq_true. split; congruence.
Qed.

(** * The claims about end_user_authorization *)

(** C8.  An [object_type] other than ["vmware"], the one member of the
    allowed list, ends the process with the message naming the allowed list;
    the state of the transport is untouched and the trace is empty: neither
    the object-id lookup nor the GET of the user happened. *)
Theorem end_user_authorization_rejects_object_type {S} (api : Api S) py_str
    object_name end_user object_type timeout s :
  object_type ≠ PStr "vmware" →
  end_user_authorization api py_str object_name end_user object_type timeout s
  = (Exited ("Error: The end_user_authorization() object_type argument must be one of the following: "
             +:+ py_str (PList [PStr "vmware"]) +:+ "."),
     s, []).
Proof.
  intros Hne. unfold end_user_authorization.
  destruct (contains valid_object_type object_type) eqn:Hin.
  - by apply contains_valid_object_type in Hin.
  - reflexivity.
Qed.

Lemma end_user_authorization_rejects_object_type_witness :
  end_user_authorization (canned (PStr "user") PNone (PStr "vm-id")) str_scalar
    (PStr "vm01") (PStr "bob") (PStr "hyperv") (PInt 15) 0
  = (Exited "Error: The end_user_authorization() object_type argument must be one of the following: ['vmware'].",
     0, []).
Proof.
  apply (end_user_authorization_rejects_object_type
           (canned (PStr "user") PNone (PStr "vm-id")) str_scalar).
  discriminate.
Defined.

(** C9.  With a valid [object_type] and a transport that answers both
    requests, the call logs, resolves the object name, logs, GETs the user
    by name, prints what the GET returned and returns [None].  Whatever the
    input and the transport, a call that returns returns [None]. *)
Theorem end_user_authorization_prints_and_returns_none {S} (api : Api S) py_str
    object_name end_user object_type timeout s :
  (∀ v, result (end_user_authorization api py_str object_name end_user
                  object_type timeout s) = Returned v → v = PNone)
  ∧ (∀ vm_id s1 user_id s2,
       contains valid_object_type object_type = true →
       api_object_id api object_name object_type s = (Returned vm_id, s1) →
       api_get api "internal" ("/user?username=" +:+ py_str end_user) None None s1
       = (Returned user_id, s2) →
       end_user_authorization api py_str object_name end_user object_type timeout s
       = (Returned PNone, s2,
          authorization_trace py_str object_name end_user object_type user_id)).
Proof.
  unfold end_user_authorization. split.
  - intros v. destruct (contains valid_object_type object_type); [|discriminate].
    unfold mbind, act_mbind, act_bind, result, mret, act_mret, act_ret,
      log, object_id, get, print. cbn [negb].
    destruct (api_object_id api _ _ s) as [[vm_id|msg|e] s1]; try discriminate.
    destruct (api_get api _ _ _ _ s1) as [[user_id|msg|e] s2]; try discriminate.
    cbn. congruence.
  - intros vm_id s1 user_id s2 -> Hid Hget.
    unfold mbind, act_mbind, act_bind, mret, act_mret, act_ret,
      log, object_id, get, print. cbn [negb].
    by rewrite Hid, Hget.
Qed.

Lemma end_user_authorization_prints_and_returns_none_witness :
  end_user_authorization (canned (PStr "user") PNone (PStr "vm-id")) str_scalar
    (PStr "vm01") (PStr "bob") (PStr "vmware") (PInt 15) 0
  = (Returned PNone, 2,
     [EvLog "end_user_authorization: Searching the Rubrik Cluster for the vSphere VM 'vm01'.";
      EvObjectId (PStr "vm01") (PStr "vmware");
      EvLog "end_user_authorization: Searching the Rubrik Cluster for the End User 'bob'.";
      EvGet "internal" "/user?username=bob" None None;
      EvPrint (PStr "user")]).
Proof.
  apply (proj2 (end_user_authorization_prints_and_returns_none
    (canned (PStr "user") PNone (PStr "vm-id")) str_scalar
    (PStr "vm01") (PStr "bob") (PStr "vmware") (PInt 15) 0)
    (PStr "vm-id") 1 (PStr "user") 2); reflexivity.
Defined.

(** C10.  The [timeout] argument is not used: two calls that differ only
    in it end the same way, leave the transport in the same state and make
    the same calls with the same arguments; and the GET of the user, when it
    is issued, carries no timeout, so that the transport's default applies. *)
Theorem end_user_authorization_ignores_timeout {S} (api : Api S) py_str
    object_name end_user object_type timeout1 timeout2 s :
  end_user_authorization api py_str object_name end_user object_type timeout1 s
  = end_user_authorization api py_str object_name end_user object_type timeout2 s
  ∧ forallb get_without_timeout
      (trace (end_user_authorization api py_str object_name end_user
                object_type timeout1 s)) = true.
Proof.
  split; [reflexivity|].
  unfold end_user_authorization.
  destruct (contains valid_object_type object_type); [|reflexivity].
  unfold mbind, act_mbind, act_bind, trace, mret, act_mret, act_ret,
    log, object_id, get, print. cbn [negb].
  destruct (api_object_id api _ _ s) as [[vm_id|msg|e] s1]; try reflexivity.
  destruct (api_get api _ _ _ _ s1) as [[user_id|msg|e] s2]; reflexivity.
Qed.

(** * Further properties of cluster_version and bootstrap_status *)

(** X1.  [cluster_version] validates nothing and transforms nothing: it logs
    one line, issues one authenticated-by-default GET of [/cluster/me/version]
    under [v1] with the caller's timeout, and ends exactly as that GET ends,
    a failure of the transport included. *)
Theorem cluster_version_passes_through {S} (api : Api S) timeout s :
  cluster_version api timeout s
  = ((api_get api "v1" "/cluster/me/version" (Some timeout) None s).1,
     (api_get api "v1" "/cluster/me/version" (Some timeout) None s).2,
     [EvLog "cluster_version: Getting the software version of the Rubrik Cluster.";
      EvGet "v1" "/cluster/me/version" (Some timeout) None]).
Proof.
  unfold cluster_version. rewrite bind_log.
  unfold mbind, act_mbind, act_bind, get, result, final, trace.
  destruct (api_get api _ _ _ _ s) as [[response|msg|e] s1]; reflexivity.
Qed.

(** X2.  [bootstrap_status] puts [str(request_id)] at the end of the query
    string as it is, issues one GET under [internal] with the caller's
    timeout and [authentication=False], and ends exactly as that GET ends. *)
Theorem bootstrap_status_passes_through {S} (api : Api S) py_str request_id timeout s :
  bootstrap_status api py_str request_id timeout s
  = ((api_get api "internal" ("/cluster/me/bootstrap?request_id=" +:+ py_str request_id)
        (Some timeout) (Some false) s).1,
     (api_get api "internal" ("/cluster/me/bootstrap?request_id=" +:+ py_str request_id)
        (Some timeout) (Some false) s).2,
     [EvLog "bootstrap_status: Getting the status of the Rubrik Cluster bootstrap.";
      EvGet "internal" ("/cluster/me/bootstrap?request_id=" +:+ py_str request_id)
        (Some timeout) (Some false)]).
Proof.
  unfold bootstrap_status. rewrite bind_log.
  unfold mbind, act_mbind, act_bind, get, result, final, trace.
  destruct (api_get api _ _ _ _ s) as [[response|msg|e] s1]; reflexivity.
Qed.

(** * Further properties of bootstrap *)

(** X3.  Once the four checks pass, [bootstrap] ends exactly as the POST of
    the body ends: the transport's answer is returned unchanged, a failure
    of the transport is not caught, and the POST is the only request. *)
Theorem bootstrap_returns_transport_answer {S} (api : Api S) cluster_name
    admin_email admin_password management_gateway management_subnet_mask
    enable_encryption (node_config : gmap string pyval) dns_search_domains
    dns_nameservers ntp_servers timeout s :
  list_arg_ok dns_search_domains = true →
  list_arg_ok dns_nameservers = true →
  list_arg_ok ntp_servers = true →
  ∃ body,
    bootstrap api cluster_name admin_email admin_password management_gateway
      management_subnet_mask enable_encryption (PDict node_config)
      dns_search_domains dns_nameservers ntp_servers timeout s
    = ((api_post api "internal" "/cluster/me/bootstrap" body
          (Some timeout) (Some false) s).1,
       (api_post api "internal" "/cluster/me/bootstrap" body
          (Some timeout) (Some false) s).2,
       bootstrap_trace body timeout).
Proof. intros Hsd Hns Hntp. eexists. by apply bootstrap_run. Qed.

Lemma bootstrap_returns_transport_answer_witness :
  ∃ body,
    bootstrap (replying (Returned PNone) (Raised (TransportError "connection refused"))
                 (Returned PNone))
      (PStr "cluster-a") (PStr "admin@example.com") (PStr "secret")
      (PStr "10.0.0.254") (PStr "255.255.255.0") (PBool true)
      (PDict (list_to_map [("node1", PStr "10.0.0.1")]))
      PNone PNone PNone (PInt 15) 0
    = (Raised (TransportError "connection refused"), 1,
       bootstrap_trace body (PInt 15)).
Proof.
  apply (bootstrap_returns_transport_answer
           (replying (Returned PNone) (Raised (TransportError "connection refused"))
              (Returned PNone))); reflexivity.
Defined.

(** X4.  The checks run in the order of the source and the first that fails
    decides the message: with [node_config] a dict, a [dns_search_domains]
    that is neither [None] nor a list (a tuple or a str included) ends the
    process with its message whatever the later arguments are; then
    [dns_nameservers]; then [ntp_servers].  Nothing is logged or sent. *)
Theorem bootstrap_checks_in_order {S} (api : Api S) cluster_name admin_email
    admin_password management_gateway management_subnet_mask enable_encryption
    (node_config : gmap string pyval) dns_search_domains dns_nameservers
    ntp_servers timeout s :
  (list_arg_ok dns_search_domains = false →
   bootstrap api cluster_name admin_email admin_password management_gateway
     management_subnet_mask enable_encryption (PDict node_config)
     dns_search_domains dns_nameservers ntp_servers timeout s
   = (Exited (list_error "dns_search_domains"), s, []))
  ∧ (list_arg_ok dns_search_domains = true →
     list_arg_ok dns_nameservers = false →
     bootstrap api cluster_name admin_email admin_password management_gateway
       management_subnet_mask enable_encryption (PDict node_config)
       dns_search_domains dns_nameservers ntp_servers timeout s
     = (Exited (list_error "dns_nameservers"), s, []))
  ∧ (list_arg_ok dns_search_domains = true →
     list_arg_ok dns_nameservers = true →
     list_arg_ok ntp_servers = false →
     bootstrap api cluster_name admin_email admin_password management_gateway
       management_subnet_mask enable_encryption (PDict node_config)
       dns_search_domains dns_nameservers ntp_servers timeout s
     = (Exited (list_error "ntp_servers"), s, [])).
Proof.
  unfold bootstrap. cbn [is_none isinstance_dict negb orb].
  rewrite bind_mret. split; [|split].
  - intros Hsd. destruct dns_search_domains; try discriminate Hsd; reflexivity.
  - intros Hsd Hns. rewrite (bind_list_check "dns_search_domains") by done.
    destruct dns_nameservers; try discriminate Hns; reflexivity.
  - intros Hsd Hns Hntp. rewrite (bind_list_check "dns_search_domains") by done.
    rewrite (bind_list_check "dns_nameservers") by done.
    destruct ntp_servers; try discriminate Hntp; reflexivity.
Qed.

Lemma bootstrap_checks_in_order_witness :
  bootstrap (canned PNone (PStr "accepted") PNone)
    (PStr "cluster-a") (PStr "admin@example.com") (PStr "secret")
    (PStr "10.0.0.254") (PStr "255.255.255.0") (PBool true)
    (PDict (list_to_map [("node1", PStr "10.0.0.1")]))
    (PStr "example.com") (PInt 8) (PInt 9) (PInt 15) 0
  = (Exited (list_error "dns_search_domains"), 0, [])
  ∧ bootstrap (canned PNone (PStr "accepted") PNone)
      (PStr "cluster-a") (PStr "admin@example.com") (PStr "secret")
      (PStr "10.0.0.254") (PStr "255.255.255.0") (PBool true)
      (PDict (list_to_map [("node1", PStr "10.0.0.1")]))
      PNone (PTuple [PStr "8.8.8.8"]) (PInt 9) (PInt 15) 0
    = (Exited (list_error "dns_nameservers"), 0, [])
  ∧ bootstrap (canned PNone (PStr "accepted") PNone)
      (PStr "cluster-a") (PStr "admin@example.com") (PStr "secret")
      (PStr "10.0.0.254") (PStr "255.255.255.0") (PBool true)
      (PDict (list_to_map [("node1", PStr "10.0.0.1")]))
      (PList []) (PList [PStr "1.1.1.1"]) (PStr "pool.ntp.org") (PInt 15) 0
    = (Exited (list_error "ntp_servers"), 0, []).
Proof.
  split; [|split].
  - apply (proj1 (bootstrap_checks_in_order
      (canned PNone (PStr "accepted") PNone) _ _ _ _ _ _ _ _ _ _ _ _)).
    reflexivity.
  - apply (proj1 (proj2 (bootstrap_checks_in_order
      (canned PNone (PStr "accepted") PNone) _ _ _ _ _ _ _ _ _ _ _ _)));
      reflexivity.
  - apply (proj2 (proj2 (bootstrap_checks_in_order
      (canned PNone (PStr "accepted") PNone) _ _ _ _ _ _ _ _ _ _ _ _)));
      reflexivity.
Defined.

(** X5.  [bootstrap] reaches the transport exactly when its four checks
    pass: then it issues one request, the POST; otherwise it issues none. *)
Theorem bootstrap_posts_iff_checks_pass {S} (api : Api S) cluster_name admin_email
    admin_password management_gateway management_subnet_mask enable_encryption
    node_config dns_search_domains dns_nameservers ntp_servers timeout s :
  existsb is_post
    (trace (bootstrap api cluster_name admin_email admin_password management_gateway
              management_subnet_mask enable_encryption node_config
              dns_search_domains dns_nameservers ntp_servers timeout s))
  = bootstrap_checks_pass node_config dns_search_domains dns_nameservers ntp_servers
  ∧ length (List.filter is_request
      (trace (bootstrap api cluster_name admin_email admin_password management_gateway
                management_subnet_mask enable_encryption node_config
                dns_search_domains dns_nameservers ntp_servers timeout s)))
    = if bootstrap_checks_pass node_config dns_search_domains dns_nameservers
           ntp_servers
      then 1 else 0.
Proof.
  destruct (bootstrap_checks_pass node_config dns_search_domains dns_nameservers
              ntp_servers) eqn:Hchecks; unfold bootstrap_checks_pass in Hchecks.
  - apply andb_prop in Hchecks as [Hchecks Hntp].
    apply andb_prop in Hchecks as [Hchecks Hns].
    apply andb_prop in Hchecks as [Hnc Hsd].
    destruct node_config; try discriminate Hnc.
    by rewrite bootstrap_posts.
  - destruct (bootstrap_exits api cluster_name admin_email admin_password
        management_gateway management_subnet_mask enable_encryption node_config
        dns_search_domains dns_nameservers ntp_servers timeout s Hchecks)
      as [msg ->].
    done.
Qed.

(** X6.  A list given for [dns_search_domains], [dns_nameservers] or
    [ntp_servers] is posted as given: its elements are not looked at, and an
    empty list is kept, not replaced by the default. *)
Theorem bootstrap_list_overrides_verbatim {S} (api : Api S) cluster_name
    admin_email admin_password management_gateway management_subnet_mask
    enable_encryption (node_config : gmap string pyval) dns_search_domains
    dns_nameservers ntp_servers timeout s :
  list_arg_ok dns_search_domains = true →
  list_arg_ok dns_nameservers = true →
  list_arg_ok ntp_servers = true →
  ∃ body,
    trace (bootstrap api cluster_name admin_email admin_password management_gateway
             management_subnet_mask enable_encryption (PDict node_config)
             dns_search_domains dns_nameservers ntp_servers timeout s)
    = bootstrap_trace body timeout
    ∧ (∀ l, dns_search_domains = PList l →
         getitem body "dnsSearchDomains" = Returned (PList l))
    ∧ (∀ l, dns_nameservers = PList l →
         getitem body "dnsNameservers" = Returned (PList l))
    ∧ (∀ l, ntp_servers = PList l →
         getitem body "ntpServers" = Returned (PList l)).
Proof.
  intros Hsd Hns Hntp. eexists. split; [by apply bootstrap_posts|].
  repeat split; intros l ->; apply getitem_posted_config.
Qed.

Lemma bootstrap_list_overrides_verbatim_witness :
  ∃ body,
    trace (bootstrap (canned PNone (PStr "accepted") PNone)
             (PStr "cluster-a") (PStr "admin@example.com") (PStr "secret")
             (PStr "10.0.0.254") (PStr "255.255.255.0") (PBool true)
             (PDict (list_to_map [("node1", PStr "10.0.0.1")]))
             (PList [PStr "example.com"]) (PList []) (PList [PInt 7; PNone])
             (PInt 15) 0)
    = bootstrap_trace body (PInt 15)
    ∧ (∀ l, PList [PStr "example.com"] = PList l →
         getitem body "dnsSearchDomains" = Returned (PList l))
    ∧ (∀ l, PList [] = PList l →
         getitem body "dnsNameservers" = Returned (PList l))
    ∧ (∀ l, PList [PInt 7; PNone] = PList l →
         getitem body "ntpServers" = Returned (PList l)).
Proof.
  apply (bootstrap_list_overrides_verbatim (canned PNone (PStr "accepted") PNone));
    reflexivity.
Defined.

(** X7.  The posted body is a dict with exactly seven keys, whatever the
    arguments; [enableSoftwareEncryptionAtRest] holds [enable_encryption] as
    given, and [adminUserInfo] has exactly the keys [password],
    [emailAddress] and [id], with [id] always ["admin"]. *)
Theorem bootstrap_body_keys {S} (api : Api S) cluster_name admin_email
    admin_password management_gateway management_subnet_mask enable_encryption
    (node_config : gmap string pyval) dns_search_domains dns_nameservers
    ntp_servers timeout s :
  list_arg_ok dns_search_domains = true →
  list_arg_ok dns_nameservers = true →
  list_arg_ok ntp_servers = true →
  ∃ body admin : gmap string pyval,
    trace (bootstrap api cluster_name admin_email admin_password management_gateway
             management_subnet_mask enable_encryption (PDict node_config)
             dns_search_domains dns_nameservers ntp_servers timeout s)
    = bootstrap_trace (PDict body) timeout
    ∧ dom body
      = list_to_set ["enableSoftwareEncryptionAtRest"; "name"; "dnsNameservers";
                     "dnsSearchDomains"; "ntpServers"; "adminUserInfo";
                     "nodeConfigs"]
    ∧ body !! "enableSoftwareEncryptionAtRest" = Some enable_encryption
    ∧ body !! "adminUserInfo" = Some (PDict admin)
    ∧ dom admin = list_to_set ["password"; "emailAddress"; "id"]
    ∧ admin !! "id" = Some (PStr "admin").
Proof.
  intros Hsd Hns Hntp. eexists _, _. split; [by apply bootstrap_posts|].
  split; [|split; [reflexivity|split; [reflexivity|split; [|reflexivity]]]].
  - rewrite dom_list_to_map_L. reflexivity.
  - rewrite dom_list_to_map_L. reflexivity.
Qed.

Lemma bootstrap_body_keys_witness :
  ∃ body admin : gmap string pyval,
    trace (bootstrap (canned PNone (PStr "accepted") PNone)
             (PStr "cluster-a") (PStr "admin@example.com") (PStr "secret")
             (PStr "10.0.0.254") (PStr "255.255.255.0") (PStr "yes")
             (PDict (list_to_map [("node1", PStr "10.0.0.1")]))
             PNone PNone PNone (PInt 15) 0)
    = bootstrap_trace (PDict body) (PInt 15)
    ∧ dom body
      = list_to_set ["enableSoftwareEncryptionAtRest"; "name"; "dnsNameservers";
                     "dnsSearchDomains"; "ntpServers"; "adminUserInfo";
                     "nodeConfigs"]
    ∧ body !! "enableSoftwareEncryptionAtRest" = Some (PStr "yes")
    ∧ body !! "adminUserInfo" = Some (PDict admin)
    ∧ dom admin = list_to_set ["password"; "emailAddress"; "id"]
    ∧ admin !! "id" = Some (PStr "admin").
Proof.
  apply (bootstrap_body_keys (canned PNone (PStr "accepted") PNone));
    reflexivity.
Defined.

(** X8.  The loop over [node_config.items()] gives the same [nodeConfigs]
    in whatever order the items are visited: started on a body whose
    [nodeConfigs] is a dict, it never fails, touches no other key of the
    body, sets the entry of every listed node and leaves the entries of the
    other nodes as they were. *)
Theorem node_configs_loop_order_irrelevant {S} management_subnet_mask
    management_gateway (bootstrap_config node_configs : gmap string pyval)
    (items1 items2 : list (string * pyval)) (s : S) :
  bootstrap_config !! "nodeConfigs" = Some (PDict node_configs) →
  NoDup items1.*1 →
  items1 ≡ₚ items2 →
  ∃ node_configs' : gmap string pyval,
    for_each items1 (PDict bootstrap_config)
      (λ bootstrap_config '(node_name, node_ip),
        bootstrap_config ← lift (setitem_at bootstrap_config
          ["nodeConfigs"] node_name (PDict ∅));
        bootstrap_config ← lift (setitem_at bootstrap_config
          ["nodeConfigs"; node_name] "managementIpConfig" (PDict ∅));
        bootstrap_config ← lift (setitem_at bootstrap_config
          ["nodeConfigs"; node_name; "managementIpConfig"] "netmask" management_subnet_mask);
        bootstrap_config ← lift (setitem_at bootstrap_config
          ["nodeConfigs"; node_name; "managementIpConfig"] "gateway" management_gateway);
        bootstrap_config ← lift (setitem_at bootstrap_config
          ["nodeConfigs"; node_name; "managementIpConfig"] "address" node_ip);
        mret bootstrap_config) s
    = (Returned (PDict (<["nodeConfigs" := PDict node_configs']> bootstrap_config)), s, [])
    ∧ for_each items2 (PDict bootstrap_config)
        (λ bootstrap_config '(node_name, node_ip),
          bootstrap_config ← lift (setitem_at bootstrap_config
            ["nodeConfigs"] node_name (PDict ∅));
          bootstrap_config ← lift (setitem_at bootstrap_config
            ["nodeConfigs"; node_name] "managementIpConfig" (PDict ∅));
          bootstrap_config ← lift (setitem_at bootstrap_config
            ["nodeConfigs"; node_name; "managementIpConfig"] "netmask" management_subnet_mask);
          bootstrap_config ← lift (setitem_at bootstrap_config
            ["nodeConfigs"; node_name; "managementIpConfig"] "gateway" management_gateway);
          bootstrap_config ← lift (setitem_at bootstrap_config
            ["nodeConfigs"; node_name; "managementIpConfig"] "address" node_ip);
          mret bootstrap_config) s
      = (Returned (PDict (<["nodeConfigs" := PDict node_configs']> bootstrap_config)), s, [])
    ∧ ∀ node_name,
        node_configs' !! node_name
        = match (list_to_map items1 : gmap string pyval) !! node_name with
          | Some node_ip =>
              Some (dict [("managementIpConfig",
                           dict [("netmask", management_subnet_mask);
                                 ("gateway", management_gateway);
                                 ("address", node_ip)])])
          | None => node_configs !! node_name
          end.
Proof.
  intros Hncs Hnd Hperm.
  set (g := λ (ncs : gmap string pyval) '((k, ip) : string * pyval),
         <[k := node_entry management_subnet_mask management_gateway ip]> ncs).
  set (R := λ (ncs : gmap string pyval) (b : pyval),
         b = PDict (<["nodeConfigs" := PDict ncs]> bootstrap_config)).
  assert (Hstart : R node_configs (PDict bootstrap_config)).
  { unfold R. by rewrite insert_id. }
  assert (Hloop : ∀ l, ∃ b',
    for_each l (PDict bootstrap_config)
      (λ bootstrap_config '(node_name, node_ip),
        bootstrap_config ← lift (setitem_at bootstrap_config
          ["nodeConfigs"] node_name (PDict ∅));
        bootstrap_config ← lift (setitem_at bootstrap_config
          ["nodeConfigs"; node_name] "managementIpConfig" (PDict ∅));
        bootstrap_config ← lift (setitem_at bootstrap_config
          ["nodeConfigs"; node_name; "managementIpConfig"] "netmask" management_subnet_mask);
        bootstrap_config ← lift (setitem_at bootstrap_config
          ["nodeConfigs"; node_name; "managementIpConfig"] "gateway" management_gateway);
        bootstrap_config ← lift (setitem_at bootstrap_config
          ["nodeConfigs"; node_name; "managementIpConfig"] "address" node_ip);
        mret bootstrap_config) s = (Returned b', s, [])
    ∧ R (foldl g node_configs l) b').
  { intros l. apply (for_each_invariant R g); [|exact Hstart].
    intros ncs b [node_name node_ip] s0 ->. eexists. split.
    - run_pure. reflexivity.
    - unfold R, g. by rewrite insert_insert_eq. }
  assert (Hfold : ∀ l, NoDup l.*1 → ∀ k,
    foldl g node_configs l !! k
    = match (list_to_map l : gmap string pyval) !! k with
      | Some ip => Some (node_entry management_subnet_mask management_gateway ip)
      | None => node_configs !! k
      end).
  { intros l Hl k. unfold g.
    apply (foldl_insert_lookup
             (node_entry management_subnet_mask management_gateway) l Hl). }
  assert (Hnd2 : NoDup items2.*1) by (by rewrite <- Hperm).
  exists (foldl g node_configs items1).
  destruct (Hloop items1) as (b1 & Hb1 & ->).
  destruct (Hloop items2) as (b2 & Hb2 & ->).
  split; [exact Hb1|]. split.
  - rewrite Hb2.
    assert (foldl g node_configs items2 = foldl g node_configs items1) as ->; [|done].
    apply map_eq. intros k. rewrite !Hfold by done.
    by rewrite (list_to_map_proper items1 items2 Hnd Hperm).
  - intros node_name. by rewrite Hfold.
Qed.

Lemma node_configs_loop_order_irrelevant_witness :
  ∃ node_configs' : gmap string pyval,
    for_each [("node1", PStr "10.0.0.1"); ("node2", PStr "10.0.0.2")]
      (PDict (<["nodeConfigs" := PDict ∅]> ∅))
      (λ bootstrap_config '(node_name, node_ip),
        bootstrap_config ← lift (setitem_at bootstrap_config
          ["nodeConfigs"] node_name (PDict ∅));
        bootstrap_config ← lift (setitem_at bootstrap_config
          ["nodeConfigs"; node_name] "managementIpConfig" (PDict ∅));
        bootstrap_config ← lift (setitem_at bootstrap_config
          ["nodeConfigs"; node_name; "managementIpConfig"] "netmask" (PStr "255.255.255.0"));
        bootstrap_config ← lift (setitem_at bootstrap_config
          ["nodeConfigs"; node_name; "managementIpConfig"] "gateway" (PStr "10.0.0.254"));
        bootstrap_config ← lift (setitem_at bootstrap_config
          ["nodeConfigs"; node_name; "managementIpConfig"] "address" node_ip);
        mret bootstrap_config) 0
    = (Returned (PDict (<["nodeConfigs" := PDict node_configs']>
                          (<["nodeConfigs" := PDict ∅]> ∅))), 0, [])
    ∧ for_each [("node2", PStr "10.0.0.2"); ("node1", PStr "10.0.0.1")]
        (PDict (<["nodeConfigs" := PDict ∅]> ∅))
        (λ bootstrap_config '(node_name, node_ip),
          bootstrap_config ← lift (setitem_at bootstrap_config
            ["nodeConfigs"] node_name (PDict ∅));
          bootstrap_config ← lift (setitem_at bootstrap_config
            ["nodeConfigs"; node_name] "managementIpConfig" (PDict ∅));
          bootstrap_config ← lift (setitem_at bootstrap_config
            ["nodeConfigs"; node_name; "managementIpConfig"] "netmask" (PStr "255.255.255.0"));
          bootstrap_config ← lift (setitem_at bootstrap_config
            ["nodeConfigs"; node_name; "managementIpConfig"] "gateway" (PStr "10.0.0.254"));
          bootstrap_config ← lift (setitem_at bootstrap_config
            ["nodeConfigs"; node_name; "managementIpConfig"] "address" node_ip);
          mret bootstrap_config) 0
      = (Returned (PDict (<["nodeConfigs" := PDict node_configs']>
                            (<["nodeConfigs" := PDict ∅]> ∅))), 0, [])
    ∧ ∀ node_name,
        node_configs' !! node_name
        = match (list_to_map [("node1", PStr "10.0.0.1"); ("node2", PStr "10.0.0.2")]
                 : gmap string pyval) !! node_name with
          | Some node_ip =>
              Some (dict [("managementIpConfig",
                           dict [("netmask", PStr "255.255.255.0");
                                 ("gateway", PStr "10.0.0.254");
                                 ("address", node_ip)])])
          | None => (∅ : gmap string pyval) !! node_name
          end.
Proof.
  apply (node_configs_loop_order_irrelevant (S := nat)
           (PStr "255.255.255.0") (PStr "10.0.0.254")
           (<["nodeConfigs" := PDict ∅]> ∅) ∅
           [("node1", PStr "10.0.0.1"); ("node2", PStr "10.0.0.2")]
           [("node2", PStr "10.0.0.2"); ("node1", PStr "10.0.0.1")] 0).
  - reflexivity.
  - apply (bool_decide_unpack _). reflexivity.
  - apply Permutation_swap.
Defined.

(** * Further properties of cluster_node_ip *)

(** X9.  A GET that does not return (the transport exits or raises) ends
    [cluster_node_ip] the same way, right after the GET: the failure is not
    caught and no list is built. *)
Theorem cluster_node_ip_transport_failure {S} (api : Api S) timeout s o s1 :
  api_get api "internal" "/cluster/me/node" (Some timeout) None s = (o, s1) →
  failed o = true →
  cluster_node_ip api timeout s = (o, s1, node_ip_trace timeout).
Proof.
  intros Hget Hfailed. unfold cluster_node_ip. rewrite bind_log.
  unfold mbind, act_mbind, act_bind, get, result, final, trace, node_ip_trace.
  rewrite Hget. by destruct o.
Qed.

Lemma cluster_node_ip_transport_failure_witness :
  cluster_node_ip
    (replying (Raised (TransportError "timed out")) (Returned PNone) (Returned PNone))
    (PInt 15) 0
  = (Raised (TransportError "timed out"), 1, node_ip_trace (PInt 15)).
Proof.
  apply (cluster_node_ip_transport_failure
           (replying (Raised (TransportError "timed out")) (Returned PNone)
              (Returned PNone))); reflexivity.
Defined.

(** X10.  Answers of another type end in [TypeError], not in a lookup error:
    a response that is no dict cannot be subscripted by ['data']; a [data]
    that is [None], a bool or an int cannot be looped over; and a [data] that
    is a non-empty str or a non-empty dict is looped over its characters or
    keys, which are strs and cannot be subscripted by ['ipAddress']. *)
Theorem cluster_node_ip_type_error {S} (api : Api S) timeout s response s1 :
  api_get api "internal" "/cluster/me/node" (Some timeout) None s
  = (Returned response, s1) →
  (isinstance_dict response = false →
   cluster_node_ip api timeout s = (Raised TypeError, s1, node_ip_trace timeout))
  ∧ (∀ data,
       getitem response "data" = Returned data →
       is_iterable data = false
       ∨ (∃ c rest, data = PStr (String c rest))
       ∨ (∃ d : gmap string pyval, data = PDict d ∧ d ≠ ∅) →
       cluster_node_ip api timeout s = (Raised TypeError, s1, node_ip_trace timeout)).
Proof.
  intros Hget. split.
  - intros Hdict.
    rewrite (cluster_node_ip_run _ _ _ _ _ Hget (Raised TypeError, s1, []));
      [reflexivity|].
    by destruct response.
  - intros data Hdata Hshape.
    rewrite (cluster_node_ip_run _ _ _ _ _ Hget (Raised TypeError, s1, []));
      [reflexivity|].
    rewrite Hdata, bind_lift_returned.
    destruct Hshape as [Hiter|[(c & rest & ->)|(d & -> & Hne)]].
    + by destruct data.
    + cbn [iter]. rewrite bind_lift_returned. reflexivity.
    + cbn [iter]. rewrite bind_lift_returned.
      destruct (map_to_list d) as [|[k v] l] eqn:Hl.
      { by apply map_to_list_empty_iff in Hl. }
      reflexivity.
Qed.

Lemma cluster_node_ip_type_error_witness :
  cluster_node_ip (canned (PList [PStr "10.0.0.1"]) PNone PNone) (PInt 15) 0
  = (Raised TypeError, 1, node_ip_trace (PInt 15))
  ∧ cluster_node_ip (canned (dict [("data", PNone)]) PNone PNone) (PInt 15) 0
    = (Raised TypeError, 1, node_ip_trace (PInt 15))
  ∧ cluster_node_ip
      (canned (dict [("data", dict [("ipAddress", PStr "10.0.0.1")])]) PNone PNone)
      (PInt 15) 0
    = (Raised TypeError, 1, node_ip_trace (PInt 15)).
Proof.
  split; [|split].
  - apply (proj1 (cluster_node_ip_type_error
      (canned (PList [PStr "10.0.0.1"]) PNone PNone) (PInt 15) 0 _ 1 eq_refl)).
    reflexivity.
  - apply (proj2 (cluster_node_ip_type_error
      (canned (dict [("data", PNone)]) PNone PNone) (PInt 15) 0 _ 1 eq_refl) PNone).
    + reflexivity.
    + left. reflexivity.
  - apply (proj2 (cluster_node_ip_type_error
      (canned (dict [("data", dict [("ipAddress", PStr "10.0.0.1")])]) PNone PNone)
      (PInt 15) 0 _ 1 eq_refl) (dict [("ipAddress", PStr "10.0.0.1")])).
    + reflexivity.
    + right. right. eexists. split; [reflexivity|]. discriminate.
Defined.

(** X11.  The loop stops at the first entry whose ['ipAddress'] cannot be
    read and the call ends with that entry's exception, [KeyError] or
    [TypeError]: the addresses collected so far are dropped and the entries
    after it are not looked at, whatever they are. *)
Theorem cluster_node_ip_stops_at_first_bad_entry {S} (api : Api S) timeout s
    (response : gmap string pyval) s1 good ips bad rest e :
  api_get api "internal" "/cluster/me/node" (Some timeout) None s
  = (Returned (PDict response), s1) →
  response !! "data" = Some (PList (good ++ bad :: rest)) →
  Forall2 (λ entry ip, getitem entry "ipAddress" = Returned ip) good ips →
  getitem bad "ipAddress" = Raised e →
  cluster_node_ip api timeout s = (Raised e, s1, node_ip_trace timeout).
Proof.
  intros Hget Hdata Hgood Hbad.
  rewrite (cluster_node_ip_run _ _ _ _ _ Hget (Raised e, s1, []));
    [reflexivity|].
  rewrite (getitem_some _ _ _ Hdata), bind_lift_returned.
  cbn [iter]. rewrite bind_lift_returned.
  apply bind_raised. by eapply node_loop_raises.
Qed.

Lemma cluster_node_ip_stops_at_first_bad_entry_witness :
  cluster_node_ip
    (canned (dict [("data", PList [dict [("ipAddress", PStr "10.0.0.1")];
                                   PInt 5;
                                   dict [("hostname", PStr "node3")]])])
            PNone PNone)
    (PInt 15) 0
  = (Raised TypeError, 1, node_ip_trace (PInt 15)).
Proof.
  eapply (cluster_node_ip_stops_at_first_bad_entry
           (canned (dict [("data", PList [dict [("ipAddress", PStr "10.0.0.1")];
                                          PInt 5;
                                          dict [("hostname", PStr "node3")]])])
                   PNone PNone)
           (PInt 15) 0 _ 1
           [dict [("ipAddress", PStr "10.0.0.1")]] [PStr "10.0.0.1"]
           (PInt 5) [dict [("hostname", PStr "node3")]] TypeError).
  - reflexivity.
  - reflexivity.
  - repeat constructor.
  - reflexivity.
Defined.

(** X12.  [data] need not be a list: whatever a [for] loop can run over is
    accepted, a tuple like a list, and when each element has an
    ['ipAddress'] the call returns the addresses in the order of the loop,
    as many as there are elements.  The values are returned as they are,
    strs or not. *)
Theorem cluster_node_ip_any_iterable {S} (api : Api S) timeout s
    (response : gmap string pyval) s1 data entries ips :
  api_get api "internal" "/cluster/me/node" (Some timeout) None s
  = (Returned (PDict response), s1) →
  response !! "data" = Some data →
  iter data = Returned entries →
  Forall2 (λ entry ip, getitem entry "ipAddress" = Returned ip) entries ips →
  cluster_node_ip api timeout s = (Returned (PList ips), s1, node_ip_trace timeout)
  ∧ length ips = length entries.
Proof.
  intros Hget Hdata Hiter Hips. split; [|symmetry; by eapply Forall2_length].
  rewrite (cluster_node_ip_run _ _ _ _ _ Hget (Returned (PList ips), s1, []));
    [reflexivity|].
  rewrite (getitem_some _ _ _ Hdata), bind_lift_returned.
  rewrite Hiter, bind_lift_returned.
  erewrite bind_returned by (by apply node_loop_returns). reflexivity.
Qed.

Lemma cluster_node_ip_any_iterable_witness :
  cluster_node_ip
    (canned (dict [("data", PTuple [dict [("ipAddress", PInt 167772161)];
                                    dict [("ipAddress", PNone); ("id", PStr "n2")]])])
            PNone PNone)
    (PInt 15) 0
  = (Returned (PList [PInt 167772161; PNone]), 1, node_ip_trace (PInt 15))
  ∧ length [PInt 167772161; PNone]
    = length [dict [("ipAddress", PInt 167772161)];
              dict [("ipAddress", PNone); ("id", PStr "n2")]].
Proof.
  eapply (cluster_node_ip_any_iterable
           (canned (dict [("data", PTuple [dict [("ipAddress", PInt 167772161)];
                                           dict [("ipAddress", PNone); ("id", PStr "n2")]])])
                   PNone PNone)
           (PInt 15) 0 _ 1
           (PTuple [dict [("ipAddress", PInt 167772161)];
                    dict [("ipAddress", PNone); ("id", PStr "n2")]])).
  - reflexivity.
  - reflexivity.
  - reflexivity.
  - repeat constructor.
Defined.

(** * Further properties of end_user_authorization *)

(** X13.  A failure of the transport ends [end_user_authorization] where it
    happens.  If the object-id lookup does not return, the call ends the same
    way after one log line and the lookup: the user is not searched for and
    nothing is printed.  If the lookup returns and the GET of the user does
    not, the call ends as the GET does and nothing is printed. *)
Theorem end_user_authorization_transport_failure {S} (api : Api S) py_str
    object_name end_user timeout s :
  (∀ o s1,
     api_object_id api object_name (PStr "vmware") s = (o, s1) →
     failed o = true →
     end_user_authorization api py_str object_name end_user (PStr "vmware") timeout s
     = (o, s1,
        [EvLog ("end_user_authorization: Searching the Rubrik Cluster for the vSphere VM '"
                +:+ py_str object_name +:+ "'.");
         EvObjectId object_name (PStr "vmware")]))
  ∧ (∀ vm_id s1 o s2,
       api_object_id api object_name (PStr "vmware") s = (Returned vm_id, s1) →
       api_get api "internal" ("/user?username=" +:+ py_str end_user) None None s1
       = (o, s2) →
       failed o = true →
       end_user_authorization api py_str object_name end_user (PStr "vmware") timeout s
       = (o, s2,
          [EvLog ("end_user_authorization: Searching the Rubrik Cluster for the vSphere VM '"
                  +:+ py_str object_name +:+ "'.");
           EvObjectId object_name (PStr "vmware");
           EvLog ("end_user_authorization: Searching the Rubrik Cluster for the End User '"
                  +:+ py_str end_user +:+ "'.");
           EvGet "internal" ("/user?username=" +:+ py_str end_user) None None])).
Proof.
  unfold end_user_authorization.
  unfold mbind, act_mbind, act_bind, mret, act_mret, act_ret,
    log, object_id, get, print.
  cbn [contains valid_object_type existsb eq_str negb].
  rewrite bool_decide_eq_true_2 by done. cbn [orb negb].
  split.
  - intros o s1 -> Hfailed. by destruct o.
  - intros vm_id s1 o s2 -> -> Hfailed. by destruct o.
Qed.

Lemma end_user_authorization_transport_failure_witness :
  end_user_authorization
    (replying (Returned (PStr "user")) (Returned PNone) (Exited "object not found"))
    str_scalar (PStr "vm01") (PStr "bob") (PStr "vmware") (PInt 15) 0
  = (Exited "object not found", 1,
     [EvLog "end_user_authorization: Searching the Rubrik Cluster for the vSphere VM 'vm01'.";
      EvObjectId (PStr "vm01") (PStr "vmware")])
  ∧ end_user_authorization
      (replying (Raised (TransportError "timed out")) (Returned PNone)
         (Returned (PStr "vm-id")))
      str_scalar (PStr "vm01") (PStr "bob") (PStr "vmware") (PInt 15) 0
    = (Raised (TransportError "timed out"), 2,
       [EvLog "end_user_authorization: Searching the Rubrik Cluster for the vSphere VM 'vm01'.";
        EvObjectId (PStr "vm01") (PStr "vmware");
        EvLog "end_user_authorization: Searching the Rubrik Cluster for the End User 'bob'.";
        EvGet "internal" "/user?username=bob" None None]).
Proof.
  split.
  - apply (proj1 (end_user_authorization_transport_failure
      (replying (Returned (PStr "user")) (Returned PNone) (Exited "object not found"))
      str_scalar (PStr "vm01") (PStr "bob") (PInt 15) 0)); reflexivity.
  - apply (proj2 (end_user_authorization_transport_failure
      (replying (Raised (TransportError "timed out")) (Returned PNone)
         (Returned (PStr "vm-id")))
      str_scalar (PStr "vm01") (PStr "bob") (PInt 15) 0) (PStr "vm-id") 1);
      reflexivity.
Defined.
